(** * auth-service-api: token lifecycle of [AuthService] and [UsersService]

    A shallow embedding of [src/auth/auth.service.ts] (register, login,
    refreshTokens, logout, validateUser, generateTokens, storeRefreshToken),
    of [src/users/users.service.ts], of the handlers of the auth controller
    and of the list of CORS origins read in [src/main.ts], over an
    in-memory model of the two Prisma tables the services touch.

    Asynchronous methods become computations in a state-and-exception monad
    [M]: the state is the database together with the clock and the supply
    the column defaults draw from, and a rejected promise is a [Throw].
    The collaborators whose code is not part of the repository (the JWS
    codec behind [JwtService], bcrypt, the configuration, the generator of
    identifiers) are the fields of one record [Env], over which every
    definition and theorem is parametric. *)

From Stdlib Require Import ZArith List String Ascii.
From Stdlib Require Import DecimalString.
Import ListNotations.

#[local] Open Scope string_scope.
#[local] Open Scope Z_scope.

(** ** Exceptions and results *)

(** The exception classes the services throw or let through.  The Nest
    exceptions carry their message; a Prisma request error carries its code
    ([P2002]: unique constraint, [P2025]: record to update not found); the
    two jsonwebtoken errors are those of [verify], and [sign] rejects with
    a plain [Error]. *)
Inductive Exception : Type :=
| UnauthorizedException (message : string)
| ConflictException (message : string)
| NotFoundException (message : string)
| PrismaClientKnownRequestError (code : string)
| JsonWebTokenError (message : string)
| TokenExpiredError
| Error (message : string).

(** The error names of the specification, as the exceptions of the code. *)
Definition InvalidCredentialsError : Exception :=
  UnauthorizedException "Invalid credentials".
Definition AccountInactiveError : Exception :=
  UnauthorizedException "Account is deactivated".
Definition InvalidRefreshTokenError : Exception :=
  UnauthorizedException "Invalid refresh token".
Definition RefreshTokenExpiredError : Exception :=
  UnauthorizedException "Refresh token expired".
Definition ConflictError : Exception :=
  ConflictException "User with this email already exists".

Inductive Result (A : Type) : Type :=
| Ok (a : A)
| Throw (e : Exception).
Arguments Ok {A} a.
Arguments Throw {A} e.

Definition is_ok {A} (r : Result A) : bool :=
  match r with Ok _ => true | Throw _ => false end.

(** ** Data model: the two tables *)

Inductive Role : Type := USER | ADMIN.

(** A row of the [User] table.  Times are JavaScript time values
    (milliseconds since the epoch). *)
Record User : Type := mkUser {
  id : string;
  email : string;
  password : string;
  firstName : option string;
  lastName : option string;
  role : Role;
  isActive : bool;
  createdAt : Z;
  updatedAt : Z
}.

(** A row of the [RefreshToken] table. *)
Record RefreshToken : Type := mkRefreshToken {
  rt_id : string;
  token : string;
  userId : string;
  expiresAt : Z;
  isRevoked : bool;
  rt_createdAt : Z
}.

(** The state the services run in: the two tables, the clock read by
    [new Date()], and the number of values already drawn from the supply
    of identifiers and salts. *)
Record World : Type := mkWorld {
  user_table : list User;
  refreshToken_table : list RefreshToken;
  clock : Z;
  drawn : nat
}.

Definition set_users (us : list User) (w : World) : World :=
  mkWorld us (refreshToken_table w) (clock w) (drawn w).
Definition set_refreshTokens (rs : list RefreshToken) (w : World) : World :=
  mkWorld (user_table w) rs (clock w) (drawn w).
Definition set_clock (t : Z) (w : World) : World :=
  mkWorld (user_table w) (refreshToken_table w) t (drawn w).
Definition set_drawn (n : nat) (w : World) : World :=
  mkWorld (user_table w) (refreshToken_table w) (clock w) n.

(** ** The monad of asynchronous service methods *)

Definition M (A : Type) : Type := World -> Result A * World.

Definition ret {A} (a : A) : M A := fun w => (Ok a, w).
Definition throw {A} (e : Exception) : M A := fun w => (Throw e, w).
Definition bind {A B} (m : M A) (k : A -> M B) : M B :=
  fun w => match m w with
           | (Ok a, w') => k a w'
           | (Throw e, w') => (Throw e, w')
           end.

(** [try { body } catch { handler }]: what the body wrote before it threw
    stays written. *)
Definition try_catch {A} (body : M A) (handler : Exception -> M A) : M A :=
  fun w => match body w with
           | (Ok a, w') => (Ok a, w')
           | (Throw e, w') => handler e w'
           end.

Declare Scope m_scope.
Delimit Scope m_scope with m.
Notation "x <- c1 ;; c2" := (bind c1 (fun x => c2))
  (at level 61, c1 at next level, right associativity) : m_scope.
Notation "c1 ;; c2" := (bind c1 (fun _ => c2))
  (at level 61, right associativity) : m_scope.
#[local] Open Scope m_scope.

Definition get_world : M World := fun w => (Ok w, w).
Definition put_world (w' : World) : M unit := fun _ => (Ok tt, w').

(** [new Date()] *)
Definition Date_now : M Z := fun w => (Ok (clock w), w).

(** One draw from the supply: the index of the draw. *)
Definition draw : M nat := fun w => (Ok (drawn w), set_drawn (S (drawn w)) w).

(** ** The collaborators outside the repository *)

(** The claims of a token: the payload [{sub, email, role}] built by
    [generateTokens], with the [iat] and [exp] that [sign] adds (seconds). *)
Record JwtPayload : Type := mkJwtPayload {
  sub : string;
  jwt_email : string;
  jwt_role : Role;
  iat : Z;
  exp : Z
}.

(** [ConfigService]: the two secrets, and the two optional lifetimes. *)
Record Config : Type := mkConfig {
  JWT_SECRET : string;
  JWT_REFRESH_SECRET : string;
  JWT_ACCESS_TOKEN_EXPIRATION : option string;
  JWT_REFRESH_TOKEN_EXPIRATION : option string
}.

Record Env : Type := mkEnv {
  (** compact serialisation of the claims, signed with the secret *)
  jws_encode : string -> JwtPayload -> string;
  (** the claims of a well-formed token whose signature matches the secret *)
  jws_decode : string -> string -> option JwtPayload;
  (** jsonwebtoken's reading of [expiresIn] as a number of seconds *)
  timespan : string -> option Z;
  (** the message of the [Error] with which jsonwebtoken's [sign] rejects
      an [expiresIn] that is no time span *)
  invalid_expiresIn : string;
  (** [bcrypt.hash(plain, 10)], the salt being the draw given *)
  bcrypt_hash : nat -> string -> string;
  (** [bcrypt.compare(plain, digest)] *)
  bcrypt_compare : string -> string -> bool;
  (** the default of an [id] column, from the draw given *)
  new_id : nat -> string;
  configService : Config;
  (** [UpdateUserDto] and the column assignment it stands for *)
  UpdateUserDto : Type;
  update_data : UpdateUserDto -> User -> User
}.

(** ** Prisma: selections, and the operations on the two tables *)

(** The [select] argument of a query on [User]: a column is returned when
    its key is present with [true]. *)
Record UserSelect : Type := mkUserSelect {
  sel_id : bool;
  sel_email : bool;
  sel_password : bool;
  sel_firstName : bool;
  sel_lastName : bool;
  sel_role : bool;
  sel_isActive : bool;
  sel_createdAt : bool;
  sel_updatedAt : bool
}.

(** The type of a column in the object a query returns: the column's own
    type when selected, nothing otherwise (as Prisma's generated types). *)
Definition col (selected : bool) (A : Type) : Type :=
  if selected then A else unit.

Definition pick (selected : bool) {A : Type} (a : A) : col selected A :=
  match selected as b return col b A with
  | true => a
  | false => tt
  end.

(** The object returned for a row under a selection. *)
Record UserObject (s : UserSelect) : Type := mkUserObject {
  o_id : col (sel_id s) string;
  o_email : col (sel_email s) string;
  o_password : col (sel_password s) string;
  o_firstName : col (sel_firstName s) (option string);
  o_lastName : col (sel_lastName s) (option string);
  o_role : col (sel_role s) Role;
  o_isActive : col (sel_isActive s) bool;
  o_createdAt : col (sel_createdAt s) Z;
  o_updatedAt : col (sel_updatedAt s) Z
}.
Arguments o_id {s} _.
Arguments o_email {s} _.
Arguments o_password {s} _.
Arguments o_firstName {s} _.
Arguments o_lastName {s} _.
Arguments o_role {s} _.
Arguments o_isActive {s} _.
Arguments o_createdAt {s} _.
Arguments o_updatedAt {s} _.

Definition select_user (s : UserSelect) (u : User) : UserObject s :=
  mkUserObject s
    (pick (sel_id s) (id u)) (pick (sel_email s) (email u))
    (pick (sel_password s) (password u))
    (pick (sel_firstName s) (firstName u)) (pick (sel_lastName s) (lastName u))
    (pick (sel_role s) (role u)) (pick (sel_isActive s) (isActive u))
    (pick (sel_createdAt s) (createdAt u)) (pick (sel_updatedAt s) (updatedAt u)).

(** A query without [select] returns every column. *)
Definition all_columns : UserSelect :=
  mkUserSelect true true true true true true true true true.

(** [const userSelect = { id: true, email: true, firstName: true,
    lastName: true, role: true, isActive: true, createdAt: true,
    updatedAt: true }] *)
Definition userSelect : UserSelect :=
  {| sel_id := true;
     sel_email := true;
     sel_password := false;
     sel_firstName := true;
     sel_lastName := true;
     sel_role := true;
     sel_isActive := true;
     sel_createdAt := true;
     sel_updatedAt := true |}.

(** [const { password, ...result } = user]: the selection of [result]. *)
Definition without_password (s : UserSelect) : UserSelect :=
  mkUserSelect (sel_id s) (sel_email s) false (sel_firstName s)
    (sel_lastName s) (sel_role s) (sel_isActive s) (sel_createdAt s)
    (sel_updatedAt s).

Definition rest_without_password {s} (o : UserObject s)
  : UserObject (without_password s) :=
  mkUserObject (without_password s)
    (o_id o) (o_email o) tt (o_firstName o) (o_lastName o) (o_role o)
    (o_isActive o) (o_createdAt o) (o_updatedAt o).

(** The own properties of a returned object, as the response body lists
    them: one entry per selected column. *)
Inductive JsValue : Type :=
| JsString (s : string)
| JsBoolean (b : bool)
| JsDate (t : Z)
| JsNull.

Definition entry (selected : bool) {A : Type} (key : string)
    (conv : A -> JsValue) : col selected A -> list (string * JsValue) :=
  match selected as b return col b A -> list (string * JsValue) with
  | true => fun a => [(key, conv a)]
  | false => fun _ => []
  end.

Definition js_nullable (o : option string) : JsValue :=
  match o with Some s => JsString s | None => JsNull end.

Definition js_role (r : Role) : JsValue :=
  match r with USER => JsString "USER" | ADMIN => JsString "ADMIN" end.

Definition properties {s} (o : UserObject s) : list (string * JsValue) :=
  entry (sel_id s) "id" JsString (o_id o)
  ++ entry (sel_email s) "email" JsString (o_email o)
  ++ entry (sel_password s) "password" JsString (o_password o)
  ++ entry (sel_firstName s) "firstName" js_nullable (o_firstName o)
  ++ entry (sel_lastName s) "lastName" js_nullable (o_lastName o)
  ++ entry (sel_role s) "role" js_role (o_role o)
  ++ entry (sel_isActive s) "isActive" JsBoolean (o_isActive o)
  ++ entry (sel_createdAt s) "createdAt" JsDate (o_createdAt o)
  ++ entry (sel_updatedAt s) "updatedAt" JsDate (o_updatedAt o).

Definition has_property {s} (key : string) (o : UserObject s) : bool :=
  existsb (fun kv => String.eqb (fst kv) key) (properties o).

(** Rewrite the first row that satisfies [p]; [None] when there is none. *)
Fixpoint update_first {A} (p : A -> bool) (f : A -> A) (l : list A)
  : option (A * list A) :=
  match l with
  | [] => None
  | x :: l' =>
      if p x then Some (f x, f x :: l')
      else match update_first p f l' with
           | Some (y, l'') => Some (y, x :: l'')
           | None => None
           end
  end.

Definition revoke (r : RefreshToken) : RefreshToken :=
  mkRefreshToken (rt_id r) (token r) (userId r) (expiresAt r) true
    (rt_createdAt r).

Definition has_token (t : string) (r : RefreshToken) : bool :=
  String.eqb (token r) t.

(** [data: { isRevoked: true }] on the rows [where: { token }]. *)
Definition revoke_matching (t : string) (r : RefreshToken) : RefreshToken :=
  if has_token t r then revoke r else r.

Section Services.

Variable E : Env.

(** *** [prisma.refreshToken] *)

(** [findUnique({ where: { token } })] *)
Definition refreshToken_findUnique (t : string) : M (option RefreshToken) :=
  w <- get_world ;;
  ret (find (has_token t) (refreshToken_table w)).

(** [update({ where: { token }, data: { isRevoked: true } })]: the one row
    with that token; rejected with P2025 when there is none. *)
Definition refreshToken_update_revoked (t : string) : M RefreshToken :=
  w <- get_world ;;
  match update_first (has_token t) revoke (refreshToken_table w) with
  | Some (r, rows) => put_world (set_refreshTokens rows w) ;; ret r
  | None => throw (PrismaClientKnownRequestError "P2025")
  end.

(** [updateMany({ where: { token }, data: { isRevoked: true } })]: every
    matching row, and the number of them; no row is not an error. *)
Definition refreshToken_updateMany_revoked (t : string) : M nat :=
  w <- get_world ;;
  put_world (set_refreshTokens
               (map (revoke_matching t) (refreshToken_table w)) w) ;;
  ret (List.length (filter (has_token t) (refreshToken_table w))).

(** Modelled from the spec: the columns of the [RefreshToken] model that
    [create] is not given, whose schema file is not among the sources: the
    identifier is fresh and the creation time is the time of the write. *)
Definition new_refreshToken (n : nat) (now : Z) (t uid : string)
    (expires : Z) (revoked : bool) : RefreshToken :=
  mkRefreshToken (new_id E n) t uid expires revoked now.

(** [create({ data: { token, userId, expiresAt, isRevoked } })]: [token] is
    a unique column (it is the key of [findUnique] and of [update]), so a
    second row with the same token is rejected with P2002. *)
Definition refreshToken_create (t uid : string) (expires : Z) (revoked : bool)
  : M RefreshToken :=
  w <- get_world ;;
  if existsb (has_token t) (refreshToken_table w)
  then throw (PrismaClientKnownRequestError "P2002")
  else
    n <- draw ;;
    now <- Date_now ;;
    w' <- get_world ;;
    let r := new_refreshToken n now t uid expires revoked in
    put_world (set_refreshTokens (refreshToken_table w' ++ [r]) w') ;;
    ret r.

(** *** [prisma.user] *)

Definition has_email (e : string) (u : User) : bool := String.eqb (email u) e.
Definition has_id (i : string) (u : User) : bool := String.eqb (id u) i.

(** [findUnique({ where: { email } })] and [findUnique({ where: { id } })] *)
Definition user_findUnique_email (e : string) : M (option User) :=
  w <- get_world ;;
  ret (find (has_email e) (user_table w)).

Definition user_findUnique_id (i : string) : M (option User) :=
  w <- get_world ;;
  ret (find (has_id i) (user_table w)).

(** [findMany()] *)
Definition user_findMany : M (list User) :=
  w <- get_world ;;
  ret (user_table w).

(** Modelled from the spec: the columns of the [User] model that [create]
    is not given, whose schema file is not among the sources.  A created
    user has a fresh identifier, the role USER and the active flag set (a
    registered user is an ordinary user and can log in at once). *)
Definition new_user (n : nat) (now : Z) (e pw : string)
    (fn ln : option string) : User :=
  mkUser (new_id E n) e pw fn ln USER true now now.

(** [create({ data })]: [email] is a unique column (it is the key of
    [findUnique]), so a second row with the same email is rejected with
    P2002. *)
Definition user_create (e pw : string) (fn ln : option string) : M User :=
  w <- get_world ;;
  if existsb (has_email e) (user_table w)
  then throw (PrismaClientKnownRequestError "P2002")
  else
    n <- draw ;;
    now <- Date_now ;;
    w' <- get_world ;;
    let u := new_user n now e pw fn ln in
    put_world (set_users (user_table w' ++ [u]) w') ;;
    ret u.

(** Modelled from the spec: the [updatedAt] column of the [User] model,
    whose schema file is not among the sources.  No caller gives the
    column a value, neither at [create] nor at [update]: the database
    manages it, and sets it to the time of the write whenever a row is
    updated. *)
Definition touch (now : Z) (u : User) : User :=
  mkUser (id u) (email u) (password u) (firstName u) (lastName u) (role u)
    (isActive u) (createdAt u) now.

(** The row an update writes: the columns of [data], and the stamp. *)
Definition written (now : Z) (data : User -> User) (u : User) : User :=
  touch now (data u).

(** [update({ where: { id }, data })]: rejected with P2025 when no row has
    the identifier. *)
Definition user_update (i : string) (data : User -> User) : M User :=
  w <- get_world ;;
  now <- Date_now ;;
  match update_first (has_id i) (written now data) (user_table w) with
  | Some (u, rows) => put_world (set_users rows w) ;; ret u
  | None => throw (PrismaClientKnownRequestError "P2025")
  end.

(** The columns an update is given: [data: { role }] and
    [data: { isActive: false }]. *)
Definition set_role (r : Role) (u : User) : User :=
  mkUser (id u) (email u) (password u) (firstName u) (lastName u) r
    (isActive u) (createdAt u) (updatedAt u).

Definition set_isActive (b : bool) (u : User) : User :=
  mkUser (id u) (email u) (password u) (firstName u) (lastName u) (role u)
    b (createdAt u) (updatedAt u).

(** *** [JwtService] (jsonwebtoken) *)

(** Seconds since the epoch at a JavaScript time value. *)
Definition seconds (t : Z) : Z := t / 1000.

(** The claims [sign] puts in a token issued at time [now] (milliseconds)
    with a lifetime of [ttl] seconds. *)
Definition claims_at (now ttl : Z) (userId e : string) (r : Role)
  : JwtPayload :=
  mkJwtPayload userId e r (seconds now) (seconds now + ttl).

(** [signAsync(payload, { secret, expiresIn })]: [iat] is the current
    second and [exp] lies [expiresIn] later; an [expiresIn] that is no time
    span is rejected with a plain [Error]. *)
Definition jwt_signAsync (userId e : string) (r : Role)
    (secret expiresIn : string) : M string :=
  now <- Date_now ;;
  match timespan E expiresIn with
  | Some ttl => ret (jws_encode E secret (claims_at now ttl userId e r))
  | None => throw (Error (invalid_expiresIn E))
  end.

(** [verify(token, { secret })]: the claims of a token that decodes under
    the secret and whose [exp] is still ahead; it throws otherwise. *)
Definition jwt_verify (t secret : string) : M JwtPayload :=
  now <- Date_now ;;
  match jws_decode E secret t with
  | Some claims =>
      if exp claims <=? seconds now then throw TokenExpiredError
      else ret claims
  | None => throw (JsonWebTokenError "invalid token")
  end.

(** [configService.get(key) || fallback] *)
Definition or_default (v : option string) (fallback : string) : string :=
  match v with
  | Some s => if String.eqb s "" then fallback else s
  | None => fallback
  end.

(** *** [UsersService] *)

Record RegisterDto : Type := mkRegisterDto {
  dto_email : string;
  dto_password : string;
  dto_firstName : option string;
  dto_lastName : option string
}.

Definition UsersService_create (createUserDto : RegisterDto)
  : M (UserObject userSelect) :=
  salt <- draw ;;
  let hashedPassword := bcrypt_hash E salt (dto_password createUserDto) in
  u <- user_create (dto_email createUserDto) hashedPassword
         (dto_firstName createUserDto) (dto_lastName createUserDto) ;;
  ret (select_user userSelect u).

Definition UsersService_findByEmail (e : string) : M (option User) :=
  user_findUnique_email e.

Definition UsersService_findById (i : string) : M (UserObject userSelect) :=
  user <- user_findUnique_id i ;;
  match user with
  | None => throw (NotFoundException "User not found")
  | Some u => ret (select_user userSelect u)
  end.

Definition UsersService_findAll : M (list (UserObject userSelect)) :=
  us <- user_findMany ;;
  ret (map (select_user userSelect) us).

Definition UsersService_update (i : string) (updateUserDto : UpdateUserDto E)
  : M (UserObject userSelect) :=
  u <- user_update i (update_data E updateUserDto) ;;
  ret (select_user userSelect u).

Definition UsersService_assignRole (uid : string) (r : Role)
  : M (UserObject userSelect) :=
  u <- user_update uid (set_role r) ;;
  ret (select_user userSelect u).

Definition UsersService_deactivate (i : string) : M User :=
  user_update i (set_isActive false).

(** *** [AuthService] *)

Record LoginDto : Type := mkLoginDto {
  login_email : string;
  login_password : string
}.

Record TokenPair : Type := mkTokenPair {
  accessToken : string;
  refreshToken : string
}.

(** [{ user, ...tokens }] *)
Record AuthResponse (s : UserSelect) : Type := mkAuthResponse {
  resp_user : UserObject s;
  resp_tokens : TokenPair
}.
Arguments mkAuthResponse {s} _ _.
Arguments resp_user {s} _.
Arguments resp_tokens {s} _.

Definition generateTokens (uid e : string) (r : Role) : M TokenPair :=
  a <- jwt_signAsync uid e r (JWT_SECRET (configService E))
         (or_default (JWT_ACCESS_TOKEN_EXPIRATION (configService E)) "15m") ;;
  t <- jwt_signAsync uid e r (JWT_REFRESH_SECRET (configService E))
         (or_default (JWT_REFRESH_TOKEN_EXPIRATION (configService E)) "7d") ;;
  ret (mkTokenPair a t).

(** [d.setDate(d.getDate() + n)], for a process whose time zone has no
    daylight-saving change in between (UTC in the container). *)
Definition day_ms : Z := 86400000.
Definition add_days (d n : Z) : Z := d + n * day_ms.

Definition storeRefreshToken (uid t : string) : M unit :=
  d <- Date_now ;;
  let expires := add_days d 7 in
  refreshToken_create t uid expires false ;;
  ret tt.

Definition register (registerDto : RegisterDto)
  : M (AuthResponse userSelect) :=
  existingUser <- UsersService_findByEmail (dto_email registerDto) ;;
  match existingUser with
  | Some _ => throw (ConflictException "User with this email already exists")
  | None =>
      user <- UsersService_create registerDto ;;
      tokens <- generateTokens (o_id user) (o_email user) (o_role user) ;;
      storeRefreshToken (o_id user) (refreshToken tokens) ;;
      ret (mkAuthResponse user tokens)
  end.

Definition login (loginDto : LoginDto)
  : M (AuthResponse (without_password all_columns)) :=
  found <- UsersService_findByEmail (login_email loginDto) ;;
  match found with
  | None => throw (UnauthorizedException "Invalid credentials")
  | Some user =>
      if negb (isActive user)
      then throw (UnauthorizedException "Account is deactivated")
      else
        let isPasswordValid :=
          bcrypt_compare E (login_password loginDto) (password user) in
        if negb isPasswordValid
        then throw (UnauthorizedException "Invalid credentials")
        else
          tokens <- generateTokens (id user) (email user) (role user) ;;
          storeRefreshToken (id user) (refreshToken tokens) ;;
          let result := rest_without_password (select_user all_columns user) in
          ret (mkAuthResponse result tokens)
  end.

(** The body of the [try] block of [refreshTokens]. *)
Definition refreshTokens_try (t : string) : M TokenPair :=
  payload <- jwt_verify t (JWT_REFRESH_SECRET (configService E)) ;;
  storedToken <- refreshToken_findUnique t ;;
  match storedToken with
  | None => throw (UnauthorizedException "Invalid refresh token")
  | Some stored =>
      if isRevoked stored
      then throw (UnauthorizedException "Invalid refresh token")
      else
        now <- Date_now ;;
        if expiresAt stored <? now
        then throw (UnauthorizedException "Refresh token expired")
        else
          user <- UsersService_findById (sub payload) ;;
          if negb (o_isActive user)
          then throw (UnauthorizedException "Account is deactivated")
          else
            refreshToken_update_revoked t ;;
            tokens <- generateTokens (o_id user) (o_email user) (o_role user) ;;
            storeRefreshToken (o_id user) (refreshToken tokens) ;;
            ret tokens
  end.

(** [try { ... } catch { throw new UnauthorizedException('Invalid refresh
    token') }]: the handler has no binding and answers every exception of
    the body alike. *)
Definition refreshTokens (t : string) : M TokenPair :=
  try_catch (refreshTokens_try t)
    (fun _ => throw (UnauthorizedException "Invalid refresh token")).

Record Message : Type := mkMessage { message : string }.

Definition logout (t : string) : M Message :=
  refreshToken_updateMany_revoked t ;;
  ret (mkMessage "Logged out successfully").

Definition validateUser (uid : string) : M (UserObject userSelect) :=
  user <- UsersService_findById uid ;;
  if negb (o_isActive user)
  then throw (UnauthorizedException "Account is deactivated")
  else ret user.

(** *** [AuthController] *)

Record RefreshTokenDto : Type := mkRefreshTokenDto { dto_refreshToken : string }.

Definition AuthController_register (registerDto : RegisterDto) :=
  register registerDto.

Definition AuthController_login (loginDto : LoginDto) := login loginDto.

Definition AuthController_refresh (refreshTokenDto : RefreshTokenDto) :=
  refreshTokens (dto_refreshToken refreshTokenDto).

(** [logout] is the one route of the controller that is not [@Public()]:
    [JwtAuthGuard], whose code is not among the sources, has authenticated
    [caller] before the handler runs.  The handler takes the body only. *)
Definition AuthController_logout (caller : UserObject userSelect)
    (refreshTokenDto : RefreshTokenDto) : M Message :=
  logout (dto_refreshToken refreshTokenDto).

End Services.

Arguments mkAuthResponse {s} _ _.
Arguments resp_user {s} _.
Arguments resp_tokens {s} _.

(** ** Running requests one after the other *)

(** The calls a client can make on [AuthService] through the controller. *)
Inductive Request : Type :=
| Register (registerDto : RegisterDto)
| Login (loginDto : LoginDto)
| Refresh (t : string)
| Logout (t : string).

(** The state a request leaves behind, whether it was answered or
    rejected. *)
Definition handle (E : Env) (q : Request) (w : World) : World :=
  match q with
  | Register dto => snd (register E dto w)
  | Login dto => snd (login E dto w)
  | Refresh t => snd (refreshTokens E t w)
  | Logout t => snd (logout t w)
  end.

(** A request served at a given time, and a whole trace of them. *)
Definition serve (E : Env) (tq : Z * Request) (w : World) : World :=
  handle E (snd tq) (set_clock (fst tq) w).

Definition serve_all (E : Env) (trace : list (Z * Request)) (w : World)
  : World :=
  fold_left (fun w' tq => serve E tq w') trace w.

(** ** The notions the properties are stated with *)

(** What may become of a stored refresh token: nothing, or revocation. *)
Definition advances (r r' : RefreshToken) : Prop :=
  r' = r \/ r' = revoke r.

(** A later state of the table: the old rows in place, each one as it was
    or revoked, followed by the rows created since. *)
Definition extends (rows rows' : list RefreshToken) : Prop :=
  exists kept extra,
    rows' = (kept ++ extra)%list /\ Forall2 advances rows kept.

Definition table_extends (w w' : World) : Prop :=
  extends (refreshToken_table w) (refreshToken_table w').

(** The row [findUnique] returns for the token exists and is revoked. *)
Definition spent (t : string) (rows : list RefreshToken) : Prop :=
  exists r, find (has_token t) rows = Some r /\ isRevoked r = true.

(** A live record of the token is in the table, for the user given. *)
Definition persisted (t uid : string) (w : World) : Prop :=
  exists r, In r (refreshToken_table w)
            /\ token r = t /\ userId r = uid /\ isRevoked r = false.

(** A computation whose final state is always related to its initial one,
    whether it returns or throws. *)
Definition preserves (R : World -> World -> Prop) {A} (m : M A) : Prop :=
  forall w, R w (snd (m w)).

(** The refresh lifetime [generateTokens] signs with, in seconds. *)
Definition refresh_ttl (E : Env) : option Z :=
  timespan E
    (or_default (JWT_REFRESH_TOKEN_EXPIRATION (configService E)) "7d").

(** ** What the methods compute on their successful paths *)

(** The access lifetime [generateTokens] signs with, in seconds. *)
Definition access_ttl (E : Env) : option Z :=
  timespan E
    (or_default (JWT_ACCESS_TOKEN_EXPIRATION (configService E)) "15m").

(** The pair signed at time [now] for a user, under the two lifetimes. *)
Definition pair_at (E : Env) (now attl rttl : Z) (uid e : string) (r : Role)
  : TokenPair :=
  mkTokenPair
    (jws_encode E (JWT_SECRET (configService E))
       (claims_at now attl uid e r))
    (jws_encode E (JWT_REFRESH_SECRET (configService E))
       (claims_at now rttl uid e r)).

(** The state once [storeRefreshToken] has written the record of a token. *)
Definition with_record (E : Env) (uid t : string) (w : World) : World :=
  mkWorld (user_table w)
    (refreshToken_table w
     ++ [new_refreshToken E (drawn w) (clock w) t uid
           (add_days (clock w) 7) false])
    (clock w) (S (drawn w)).

(** The row [UsersService.create] writes for a registration, and the
    state once it is written: the salt is drawn first, the identifier
    next. *)
Definition registered_user (E : Env) (dto : RegisterDto) (w : World) : User :=
  new_user E (S (drawn w)) (clock w) (dto_email dto)
    (bcrypt_hash E (drawn w) (dto_password dto))
    (dto_firstName dto) (dto_lastName dto).

Definition with_user (E : Env) (dto : RegisterDto) (w : World) : World :=
  mkWorld (user_table w ++ [registered_user E dto w]) (refreshToken_table w)
    (clock w) (S (S (drawn w))).

(** The table once the row [findUnique] returns for a token is revoked. *)
Definition revoke_first (t : string) (rows : list RefreshToken)
  : list RefreshToken :=
  match update_first (has_token t) revoke rows with
  | Some (_, rows') => rows'
  | None => rows
  end.

(** The table of users once the first row with an identifier is rewritten. *)
Definition rewrite_user (i : string) (data : User -> User) (us : list User)
  : list User :=
  match update_first (has_id i) data us with
  | Some (_, us') => us'
  | None => us
  end.

(** The unique columns hold no value twice. *)
Definition unique_tokens (w : World) : Prop :=
  NoDup (map token (refreshToken_table w)).

Definition unique_emails (w : World) : Prop :=
  NoDup (map email (user_table w)).

Definition unique_ids (w : World) : Prop :=
  NoDup (map id (user_table w)).

(** Relations between the state before and the state after. *)
Definition users_kept (w w' : World) : Prop :=
  user_table w' = user_table w.

Definition uniqueness_kept (w w' : World) : Prop :=
  (unique_tokens w -> unique_tokens w')
  /\ (unique_emails w -> unique_emails w').

(** ** [main.ts]: the origins allowed by CORS

    [process.env.CORS_ORIGINS?.split(',').map((o) => o.trim())
    .filter(Boolean) || []].  The operations look at the characters of the
    string, so a string is here the list of its UTF-16 code units. *)

Definition comma : N := 44%N.

(** The code units [trim] removes: the white space and the line
    terminators of ECMAScript. *)
Definition is_white (c : N) : bool :=
  ((9 <=? c) && (c <=? 13) || (c =? 32) || (c =? 160) || (c =? 5760)
   || (8192 <=? c) && (c <=? 8202) || (c =? 8232) || (c =? 8233)
   || (c =? 8239) || (c =? 8287) || (c =? 12288) || (c =? 65279))%N%bool.

(** [s.split(',')]: the pieces between the commas; one empty piece for the
    empty string. *)
Fixpoint split_comma (s : list N) : list (list N) :=
  match s with
  | [] => [[]]
  | c :: s' =>
      if N.eqb c comma then [] :: split_comma s'
      else match split_comma s' with
           | p :: ps => (c :: p) :: ps
           | [] => [[c]]
           end
  end.

Fixpoint trimStart (s : list N) : list N :=
  match s with
  | c :: s' => if is_white c then trimStart s' else s
  | [] => []
  end.

Definition trimEnd (s : list N) : list N := rev (trimStart (rev s)).

(** [o.trim()] *)
Definition trim (s : list N) : list N := trimEnd (trimStart s).

(** [Boolean(o)] for a string: it is not the empty one. *)
Definition truthy (s : list N) : bool :=
  match s with [] => false | _ :: _ => true end.

(** The value of [corsOrigins], from the variable when it is set. *)
Definition corsOrigins (CORS_ORIGINS : option (list N)) : list (list N) :=
  match CORS_ORIGINS with
  | Some s => filter truthy (map trim (split_comma s))
  | None => []
  end.

(** [origins.join(',')] *)
Fixpoint join_comma (ps : list (list N)) : list N :=
  match ps with
  | [] => []
  | [p] => p
  | p :: ps' => p ++ comma :: join_comma ps'
  end.

(** An origin as one would write it in the variable: not empty, without a
    comma, and with no white space at either end. *)
Definition starts_white (s : list N) : bool :=
  match s with c :: _ => is_white c | [] => false end.

Definition clean_origin (o : list N) : Prop :=
  o <> [] /\ ~ In comma o
  /\ starts_white o = false /\ starts_white (rev o) = false.

(** The code units of a string of the basic Latin range. *)
Definition units (s : string) : list N :=
  map N_of_ascii (list_ascii_of_string s).

(** ** A concrete environment

    A transparent stand-in for the collaborators, on which the services
    can be run: tokens and digests are readable strings with fields
    separated by a bar. *)
Module Scenario.

Definition bar : ascii := "|"%char.

Fixpoint split_bar (s : string) : list string :=
  match s with
  | EmptyString => [EmptyString]
  | String c s' =>
      if Ascii.eqb c bar then EmptyString :: split_bar s'
      else match split_bar s' with
           | [] => [String c EmptyString]
           | h :: rest => String c h :: rest
           end
  end.

Definition show_Z (z : Z) : string := NilZero.string_of_int (Z.to_int z).

Definition read_Z (s : string) : option Z :=
  option_map Z.of_int (NilZero.int_of_string s).

Definition show_role (r : Role) : string :=
  match r with USER => "USER" | ADMIN => "ADMIN" end.

Definition read_role (s : string) : option Role :=
  if String.eqb s "USER" then Some USER
  else if String.eqb s "ADMIN" then Some ADMIN
  else None.

Definition encode (secret : string) (c : JwtPayload) : string :=
  secret ++ "|" ++ sub c ++ "|" ++ jwt_email c ++ "|" ++ show_role (jwt_role c)
  ++ "|" ++ show_Z (iat c) ++ "|" ++ show_Z (exp c).

Definition decode (secret t : string) : option JwtPayload :=
  match split_bar t with
  | [k; s; e; r; i; x] =>
      if String.eqb k secret then
        match read_role r, read_Z i, read_Z x with
        | Some r', Some i', Some x' => Some (mkJwtPayload s e r' i' x')
        | _, _, _ => None
        end
      else None
  | _ => None
  end.

(** The time spans the scenarios use. *)
Definition span (s : string) : option Z :=
  if String.eqb s "15m" then Some 900
  else if String.eqb s "1d" then Some 86400
  else if String.eqb s "7d" then Some 604800
  else if String.eqb s "30d" then Some 2592000
  else None.

Definition hash (salt : nat) (plain : string) : string :=
  "$" ++ show_Z (Z.of_nat salt) ++ "|" ++ plain.

Definition compare (plain digest : string) : bool :=
  match split_bar digest with
  | [_; p] => String.eqb p plain
  | _ => false
  end.

Definition ident (n : nat) : string := "id-" ++ show_Z (Z.of_nat n).

Definition config (refreshTtl : option string) : Config :=
  mkConfig "access-secret" "refresh-secret" None refreshTtl.

(** The environment, with the refresh lifetime that is configured. *)
Definition env (refreshTtl : option string) : Env :=
  mkEnv encode decode span
    "expiresIn should be a number of seconds or string representing a timespan"
    hash compare ident (config refreshTtl) unit (fun _ u => u).

Definition empty_at (t : Z) : World := mkWorld [] [] t 0.

Definition alice : RegisterDto :=
  mkRegisterDto "alice@example.com" "pw123456" (Some "Alice") None.

Definition bob : RegisterDto :=
  mkRegisterDto "bob@example.com" "hunter2!" None None.


(** Alice has registered at time 1000000, under the default lifetimes. *)
Definition alice_row : User :=
  mkUser "id-1" "alice@example.com" "$0|pw123456" (Some "Alice") None USER
    true 1000000 1000000.

Definition alice_refresh : string :=
  "refresh-secret|id-1|alice@example.com|USER|1000|605800".

Definition alice_record : RefreshToken :=
  mkRefreshToken "id-2" alice_refresh "id-1" 605800000 false 1000000.

Definition registered : World :=
  mkWorld [alice_row] [alice_record] 1000000 3.

Definition alice_login : LoginDto :=
  mkLoginDto "alice@example.com" "pw123456".

(** Five seconds later she has refreshed. *)
Definition rotated_pair : TokenPair :=
  mkTokenPair "access-secret|id-1|alice@example.com|USER|1005|1905"
    "refresh-secret|id-1|alice@example.com|USER|1005|605805".

Definition rotated : World :=
  mkWorld [alice_row]
    [revoke alice_record;
     mkRefreshToken "id-3" (refreshToken rotated_pair) "id-1" 605805000 false
       1005000]
    1005000 4.

(** The same registration when the refresh lifetime is configured as
    thirty days, and the state a little over eight days later. *)
Definition alice_refresh_30d : string :=
  "refresh-secret|id-1|alice@example.com|USER|1000|2593000".

Definition alice_record_30d : RefreshToken :=
  mkRefreshToken "id-2" alice_refresh_30d "id-1" 605800000 false 1000000.

Definition registered_30d : World :=
  mkWorld [alice_row] [alice_record_30d] 1000000 3.

Definition eight_days_later : World := set_clock 700000000 registered_30d.

(** Bob has registered after Alice. *)
Definition bob_row : User :=
  mkUser "id-4" "bob@example.com" "$3|hunter2!" None None USER true 2000000
    2000000.

Definition bob_refresh : string :=
  "refresh-secret|id-4|bob@example.com|USER|2000|606800".

Definition bob_record : RefreshToken :=
  mkRefreshToken "id-5" bob_refresh "id-4" 606800000 false 2000000.

Definition both_registered : World :=
  mkWorld [alice_row; bob_row] [alice_record; bob_record] 2000000 6.

(** Alice's account has been deactivated after her registration. *)
Definition alice_deactivated : World :=
  mkWorld [set_isActive false alice_row] [alice_record] 1000000 3.

Definition wrong_password : LoginDto :=
  mkLoginDto "alice@example.com" "not-her-password".

Definition unknown_email : LoginDto :=
  mkLoginDto "nobody@example.com" "pw123456".


(** An environment whose refresh lifetime is no time span. *)
Definition misconfigured : Env := env (Some "a week").

(** Alice has logged in two and a half seconds after her registration. *)
Definition login_pair : TokenPair :=
  mkTokenPair "access-secret|id-1|alice@example.com|USER|1002|1902"
    "refresh-secret|id-1|alice@example.com|USER|1002|605802".

Definition logged_in : World :=
  mkWorld [alice_row]
    [alice_record;
     mkRefreshToken "id-3" (refreshToken login_pair) "id-1" 605802500 false
       1002500]
    1002500 4.

Definition alice_claims : JwtPayload :=
  mkJwtPayload "id-1" "alice@example.com" USER 1000 605800.

(** Alice has been made an administrator six seconds after her
    registration. *)
Definition alice_admin_row : User :=
  mkUser "id-1" "alice@example.com" "$0|pw123456" (Some "Alice") None ADMIN
    true 1000000 1006000.

Definition alice_promoted : World :=
  mkWorld [alice_admin_row] [alice_record] 1006000 3.

End Scenario.

(** ** The monad: how results and states compose *)

Lemma bind_Ok {A B} (m : M A) (k : A -> M B) w b w' :
  bind m k w = (Ok b, w') ->
  exists a w1, m w = (Ok a, w1) /\ k a w1 = (Ok b, w').
Proof.
  unfold bind. destruct (m w) as [[a | e] w1]; intros H.
  - exists a, w1. split; [reflexivity | exact H].
  - discriminate H.
Qed.

Lemma bind_run_Ok {A B} (m : M A) (k : A -> M B) w a w1 :
  m w = (Ok a, w1) -> bind m k w = k a w1.
Proof. intros H. unfold bind. rewrite H. reflexivity. Qed.

Lemma bind_run_Throw {A B} (m : M A) (k : A -> M B) w e w1 :
  m w = (Throw e, w1) -> bind m k w = (Throw e, w1).
Proof. intros H. unfold bind. rewrite H. reflexivity. Qed.

Section Preservation.

Variable R : World -> World -> Prop.
Hypothesis R_refl : forall w, R w w.
Hypothesis R_trans : forall a b c, R a b -> R b c -> R a c.

Lemma preserves_ret {A} (a : A) : preserves R (ret a).
Proof. intros w. apply R_refl. Qed.

Lemma preserves_throw {A} (e : Exception) : preserves R (@throw A e).
Proof. intros w. apply R_refl. Qed.

Lemma preserves_get_world : preserves R get_world.
Proof. intros w. apply R_refl. Qed.

Lemma preserves_Date_now : preserves R Date_now.
Proof. intros w. apply R_refl. Qed.

Lemma preserves_bind {A B} (m : M A) (k : A -> M B) :
  preserves R m -> (forall a, preserves R (k a)) -> preserves R (bind m k).
Proof.
  intros Hm Hk w. unfold bind.
  specialize (Hm w). destruct (m w) as [[a | e] w1]; simpl in *.
  - eapply R_trans; [exact Hm | apply Hk].
  - exact Hm.
Qed.

Lemma preserves_try_catch {A} (body : M A) (handler : Exception -> M A) :
  preserves R body -> (forall e, preserves R (handler e)) ->
  preserves R (try_catch body handler).
Proof.
  intros Hb Hh w. unfold try_catch.
  specialize (Hb w). destruct (body w) as [[a | e] w1]; simpl in *.
  - exact Hb.
  - eapply R_trans; [exact Hb | apply Hh].
Qed.

End Preservation.

(** ** The refresh-token table only grows and revokes *)

Lemma revoke_revoke r : revoke (revoke r) = revoke r.
Proof. reflexivity. Qed.

Lemma has_token_revoke t r : has_token t (revoke r) = has_token t r.
Proof. reflexivity. Qed.

Lemma advances_refl r : advances r r.
Proof. left. reflexivity. Qed.

Lemma advances_trans a b c : advances a b -> advances b c -> advances a c.
Proof.
  intros [-> | ->] [-> | ->]; unfold advances; auto.
Qed.

Lemma advances_fields r r' :
  advances r r' ->
  rt_id r' = rt_id r /\ token r' = token r /\ userId r' = userId r
  /\ expiresAt r' = expiresAt r /\ rt_createdAt r' = rt_createdAt r
  /\ (isRevoked r = true -> isRevoked r' = true).
Proof.
  intros [-> | ->]; simpl; repeat split; auto.
Qed.

Lemma Forall2_advances_refl rows : Forall2 advances rows rows.
Proof. induction rows; constructor; auto using advances_refl. Qed.

Lemma Forall2_advances_trans a b c :
  Forall2 advances a b -> Forall2 advances b c -> Forall2 advances a c.
Proof.
  intros Hab. revert c.
  induction Hab as [| x y xs ys Hxy _ IH]; intros c Hbc.
  - inversion Hbc. constructor.
  - inversion Hbc as [| y' z ys' zs Hyz Hrest]; subst.
    constructor; [eapply advances_trans; eauto | apply IH; assumption].
Qed.

Lemma extends_refl rows : extends rows rows.
Proof.
  exists rows, []. split.
  - symmetry. apply app_nil_r.
  - apply Forall2_advances_refl.
Qed.

Lemma extends_trans a b c : extends a b -> extends b c -> extends a c.
Proof.
  intros (k1 & x1 & -> & H1) (k2 & x2 & -> & H2).
  apply Forall2_app_inv_l in H2 as (k2a & k2b & Ha & Hb & ->).
  exists k2a, (k2b ++ x2)%list. split.
  - symmetry. apply app_assoc.
  - eapply Forall2_advances_trans; eassumption.
Qed.

Lemma extends_app rows extra : extends rows (rows ++ extra).
Proof.
  exists rows, extra. split; [reflexivity | apply Forall2_advances_refl].
Qed.

Lemma extends_revoke_matching t rows :
  extends rows (map (revoke_matching t) rows).
Proof.
  exists (map (revoke_matching t) rows), []. split.
  - symmetry. apply app_nil_r.
  - induction rows as [| r rows IH]; simpl; constructor; auto.
    unfold revoke_matching, advances. destruct (has_token t r); auto.
Qed.

Lemma update_first_revoke_advances t rows r rows' :
  update_first (has_token t) revoke rows = Some (r, rows') ->
  Forall2 advances rows rows'.
Proof.
  revert r rows'. induction rows as [| x rows IH]; simpl; intros r rows' H.
  - discriminate.
  - destruct (has_token t x).
    + injection H as <- <-. constructor.
      * right. reflexivity.
      * apply Forall2_advances_refl.
    + destruct (update_first (has_token t) revoke rows) as [[y l] |];
        [| discriminate].
      injection H as <- <-. constructor.
      * apply advances_refl.
      * eapply IH. reflexivity.
Qed.

Lemma extends_update_first t rows r rows' :
  update_first (has_token t) revoke rows = Some (r, rows') ->
  extends rows rows'.
Proof.
  intros H. exists rows', []. split.
  - symmetry. apply app_nil_r.
  - eapply update_first_revoke_advances; eassumption.
Qed.

Lemma extends_nth_error rows rows' n r :
  extends rows rows' -> nth_error rows n = Some r ->
  exists r', nth_error rows' n = Some r' /\ advances r r'.
Proof.
  intros (kept & extra & -> & HF). revert n.
  induction HF as [| x y xs ys Hxy _ IH]; intros n Hn.
  - destruct n; discriminate.
  - destruct n as [| n]; simpl in *.
    + injection Hn as <-. exists y. split; [reflexivity | assumption].
    + apply IH. assumption.
Qed.

Lemma table_extends_refl w : table_extends w w.
Proof. apply extends_refl. Qed.

Lemma table_extends_trans a b c :
  table_extends a b -> table_extends b c -> table_extends a c.
Proof. apply extends_trans. Qed.

(** Each operation on the database, seen from the refresh-token table. *)

Lemma draw_table_extends : preserves table_extends draw.
Proof. intros w. apply extends_refl. Qed.

Lemma refreshToken_findUnique_table_extends t :
  preserves table_extends (refreshToken_findUnique t).
Proof. intros w. apply extends_refl. Qed.

Lemma refreshToken_update_revoked_table_extends t :
  preserves table_extends (refreshToken_update_revoked t).
Proof.
  intros w. unfold refreshToken_update_revoked, bind, get_world. simpl.
  destruct (update_first (has_token t) revoke (refreshToken_table w))
    as [[r rows] |] eqn:Hu; simpl.
  - eapply extends_update_first. exact Hu.
  - apply extends_refl.
Qed.

Lemma refreshToken_updateMany_revoked_table_extends t :
  preserves table_extends (refreshToken_updateMany_revoked t).
Proof. intros w. apply extends_revoke_matching. Qed.

Lemma refreshToken_create_table_extends E t uid expires revoked :
  preserves table_extends (refreshToken_create E t uid expires revoked).
Proof.
  intros w. unfold refreshToken_create, bind, get_world. simpl.
  destruct (existsb (has_token t) (refreshToken_table w)); simpl.
  - apply extends_refl.
  - apply extends_app.
Qed.

Lemma user_findUnique_email_table_extends e :
  preserves table_extends (user_findUnique_email e).
Proof. intros w. apply extends_refl. Qed.

Lemma user_findUnique_id_table_extends i :
  preserves table_extends (user_findUnique_id i).
Proof. intros w. apply extends_refl. Qed.

Lemma user_create_table_extends E e pw fn ln :
  preserves table_extends (user_create E e pw fn ln).
Proof.
  intros w. unfold user_create, bind, get_world. simpl.
  destruct (existsb (has_email e) (user_table w)); apply extends_refl.
Qed.

Lemma user_update_table_extends i data :
  preserves table_extends (user_update i data).
Proof.
  intros w. unfold user_update, bind, get_world, Date_now. simpl.
  destruct (update_first (has_id i) (written (clock w) data) (user_table w))
    as [[u rows] |];
    apply extends_refl.
Qed.

Lemma jwt_signAsync_table_extends E uid e r secret expiresIn :
  preserves table_extends (jwt_signAsync E uid e r secret expiresIn).
Proof.
  intros w. unfold jwt_signAsync, bind, Date_now. simpl.
  destruct (timespan E expiresIn); apply extends_refl.
Qed.

Lemma jwt_verify_table_extends E t secret :
  preserves table_extends (jwt_verify E t secret).
Proof.
  intros w. unfold jwt_verify, bind, Date_now. simpl.
  destruct (jws_decode E secret t) as [c |]; [| apply extends_refl].
  destruct (exp c <=? seconds (clock w)); apply extends_refl.
Qed.

Create HintDb frame.
#[local] Hint Resolve draw_table_extends refreshToken_findUnique_table_extends
  refreshToken_update_revoked_table_extends
  refreshToken_updateMany_revoked_table_extends
  refreshToken_create_table_extends user_findUnique_email_table_extends
  user_findUnique_id_table_extends user_create_table_extends
  user_update_table_extends jwt_signAsync_table_extends
  jwt_verify_table_extends : frame.

(** Splits a service method along its binds and branches, and closes the
    leaves with the lemmas on the operations of the database. *)
Ltac frame_step :=
  match goal with
  | |- preserves _ (bind _ _) =>
      apply preserves_bind; [exact table_extends_trans | | intros ? ]
  | |- preserves _ (try_catch _ _) =>
      apply preserves_try_catch; [exact table_extends_trans | | intros ? ]
  | |- preserves _ (ret _) => apply preserves_ret; exact table_extends_refl
  | |- preserves _ (throw _) => apply preserves_throw; exact table_extends_refl
  | |- preserves _ Date_now =>
      apply preserves_Date_now; exact table_extends_refl
  | |- preserves _ (match ?x with _ => _ end) => destruct x
  | |- preserves _ _ => solve [auto with frame]
  end.

Ltac frame := repeat frame_step.

Lemma generateTokens_table_extends E uid e r :
  preserves table_extends (generateTokens E uid e r).
Proof. unfold generateTokens. frame. Qed.

Lemma storeRefreshToken_table_extends E uid t :
  preserves table_extends (storeRefreshToken E uid t).
Proof. unfold storeRefreshToken. frame. Qed.

Lemma UsersService_create_table_extends E dto :
  preserves table_extends (UsersService_create E dto).
Proof. unfold UsersService_create. frame. Qed.

Lemma UsersService_findById_table_extends i :
  preserves table_extends (UsersService_findById i).
Proof. unfold UsersService_findById. frame. Qed.

#[local] Hint Resolve generateTokens_table_extends
  storeRefreshToken_table_extends UsersService_create_table_extends
  UsersService_findById_table_extends : frame.

Lemma register_table_extends E dto :
  preserves table_extends (register E dto).
Proof. unfold register, UsersService_findByEmail. frame. Qed.

Lemma login_table_extends E dto : preserves table_extends (login E dto).
Proof. unfold login, UsersService_findByEmail. frame. Qed.

Lemma refreshTokens_table_extends E t :
  preserves table_extends (refreshTokens E t).
Proof. unfold refreshTokens, refreshTokens_try. frame. Qed.

Lemma logout_table_extends t : preserves table_extends (logout t).
Proof. unfold logout. frame. Qed.

Lemma handle_table_extends E q w : table_extends w (handle E q w).
Proof.
  destruct q; simpl.
  - apply register_table_extends.
  - apply login_table_extends.
  - apply refreshTokens_table_extends.
  - apply logout_table_extends.
Qed.

Lemma serve_table_extends E tq w : table_extends w (serve E tq w).
Proof.
  unfold serve.
  apply (handle_table_extends E (snd tq) (set_clock (fst tq) w)).
Qed.

Lemma serve_all_table_extends E trace w :
  table_extends w (serve_all E trace w).
Proof.
  unfold serve_all. revert w.
  induction trace as [| tq trace IH]; intros w; simpl.
  - apply table_extends_refl.
  - eapply table_extends_trans; [apply serve_table_extends | apply IH].
Qed.

(** ** Rotation: a refresh token is spent by the call that succeeds *)

Lemma spent_extends t rows rows' :
  extends rows rows' -> spent t rows -> spent t rows'.
Proof.
  intros (kept & extra & -> & HF) (r & Hfind & Hrev). unfold spent.
  induction HF as [| x y xs ys Hxy _ IH]; simpl in *.
  - discriminate.
  - destruct (advances_fields _ _ Hxy) as (_ & Htok & _ & _ & _ & Hkeep).
    unfold has_token in *. rewrite Htok.
    destruct (String.eqb (token x) t).
    + injection Hfind as <-. exists y. split; [reflexivity | auto].
    + apply IH. assumption.
Qed.

Lemma update_first_spent t rows r rows' :
  update_first (has_token t) revoke rows = Some (r, rows') ->
  spent t rows'.
Proof.
  revert r rows'. induction rows as [| x rows IH]; simpl; intros r rows' H.
  - discriminate.
  - destruct (has_token t x) eqn:Hx.
    + injection H as <- <-. exists (revoke x). cbn [find].
      rewrite has_token_revoke, Hx. split; reflexivity.
    + destruct (update_first (has_token t) revoke rows) as [[y l] |];
        [| discriminate].
      injection H as <- <-. unfold spent. cbn [find]. rewrite Hx.
      eapply IH. reflexivity.
Qed.

Lemma refreshToken_update_revoked_spent t w r w' :
  refreshToken_update_revoked t w = (Ok r, w') ->
  spent t (refreshToken_table w').
Proof.
  unfold refreshToken_update_revoked, bind, get_world. simpl.
  destruct (update_first (has_token t) revoke (refreshToken_table w))
    as [[r0 rows] |] eqn:Hu; simpl; intros H.
  - injection H as <- <-. simpl. eapply update_first_spent. exact Hu.
  - discriminate.
Qed.

(** Every rejection of [refreshTokens] is the same exception. *)
Lemma refreshTokens_Throw E t w e w' :
  refreshTokens E t w = (Throw e, w') -> e = InvalidRefreshTokenError.
Proof.
  unfold refreshTokens, try_catch, throw.
  destruct (refreshTokens_try E t w) as [[p | e0] w0]; intros H.
  - discriminate.
  - injection H as <- _. reflexivity.
Qed.

Lemma refreshTokens_Ok_spent E t w pair w' :
  refreshTokens E t w = (Ok pair, w') ->
  spent t (refreshToken_table w').
Proof.
  unfold refreshTokens, try_catch, throw.
  destruct (refreshTokens_try E t w) as [[p | e0] w0] eqn:Htry;
    [| discriminate].
  intros H. injection H as -> ->.
  unfold refreshTokens_try in Htry.
  apply bind_Ok in Htry as (payload & w1 & _ & Htry).
  apply bind_Ok in Htry as (stored & w2 & _ & Htry).
  destruct stored as [stored |]; [| discriminate].
  destruct (isRevoked stored); [discriminate |].
  apply bind_Ok in Htry as (now & w3 & _ & Htry).
  destruct (expiresAt stored <? now); [discriminate |].
  apply bind_Ok in Htry as (user & w4 & _ & Htry).
  destruct (negb (o_isActive user)); [discriminate |].
  apply bind_Ok in Htry as (r & w5 & Hupd & Htry).
  apply refreshToken_update_revoked_spent in Hupd.
  eapply spent_extends; [| exact Hupd].
  match type of Htry with
  | ?k w5 = _ =>
      assert (Hk : preserves table_extends k) by frame;
      specialize (Hk w5); rewrite Htry in Hk; exact Hk
  end.
Qed.

Lemma refreshTokens_spent_rejected E t w :
  spent t (refreshToken_table w) ->
  fst (refreshTokens E t w) = Throw InvalidRefreshTokenError.
Proof.
  intros (r & Hfind & Hrev).
  unfold refreshTokens, try_catch, refreshTokens_try.
  unfold bind at 1.
  destruct (jwt_verify E t (JWT_REFRESH_SECRET (configService E)) w)
    as [[payload | e] w1] eqn:Hv; [| reflexivity].
  assert (w1 = w) as ->.
  { revert Hv. unfold jwt_verify, bind, Date_now. simpl.
    destruct (jws_decode E (JWT_REFRESH_SECRET (configService E)) t) as [c |];
      [| discriminate].
    destruct (exp c <=? seconds (clock w)); [discriminate |].
    intros H. injection H as _ <-. reflexivity. }
  unfold bind, refreshToken_findUnique, get_world, ret. simpl.
  rewrite Hfind, Hrev. reflexivity.
Qed.

(** C1. Refresh tokens are single-use: once [refreshTokens] has answered a
    token with a new pair, every later call with the same string, after
    any requests served in between and at any time, is rejected with the
    invalid-refresh-token exception. *)
Theorem refresh_token_single_use E t w pair w1 :
  refreshTokens E t w = (Ok pair, w1) ->
  forall (trace : list (Z * Request)) (later : Z),
    fst (refreshTokens E t (set_clock later (serve_all E trace w1)))
    = Throw InvalidRefreshTokenError.
Proof.
  intros Hfirst trace later.
  apply refreshTokens_spent_rejected. simpl.
  eapply spent_extends.
  - apply serve_all_table_extends.
  - eapply refreshTokens_Ok_spent. exact Hfirst.
Qed.

(** C6. No request deletes a refresh-token record or rewrites it, except
    to revoke it: whatever the request (register, login, refresh, logout)
    and whether it is answered or rejected, every record of the table is
    still at its place afterwards, either untouched or with the revoked
    flag set, so that its token, user, expiry and creation time are the
    same. *)
Theorem refresh_records_only_revoked E (q : Request) (w : World) n r :
  nth_error (refreshToken_table w) n = Some r ->
  exists r',
    nth_error (refreshToken_table (handle E q w)) n = Some r'
    /\ (r' = r \/ r' = revoke r)
    /\ token r' = token r /\ userId r' = userId r
    /\ expiresAt r' = expiresAt r /\ rt_createdAt r' = rt_createdAt r.
Proof.
  intros Hn.
  destruct (extends_nth_error _ _ _ _ (handle_table_extends E q w) Hn)
    as (r' & Hn' & Hadv).
  exists r'. split; [exact Hn' |]. split; [exact Hadv |].
  destruct (advances_fields _ _ Hadv) as (_ & H1 & H2 & H3 & H4 & _).
  auto.
Qed.

(** ** Expiry of the stored record *)

Lemma jwt_verify_Ok E t secret w payload w' :
  jwt_verify E t secret w = (Ok payload, w') ->
  w' = w /\ jws_decode E secret t = Some payload
  /\ seconds (clock w) < exp payload.
Proof.
  unfold jwt_verify, bind, Date_now. simpl.
  destruct (jws_decode E secret t) as [c |]; [| discriminate].
  destruct (exp c <=? seconds (clock w)) eqn:Hexp; [discriminate |].
  intros H. injection H as <- <-.
  apply Z.leb_gt in Hexp. auto.
Qed.

(** What the [try] block itself throws on an expired record, when the
    token passes [verify]. *)
Lemma refreshTokens_try_expired E t w payload stored :
  jwt_verify E t (JWT_REFRESH_SECRET (configService E)) w = (Ok payload, w) ->
  find (has_token t) (refreshToken_table w) = Some stored ->
  isRevoked stored = false ->
  expiresAt stored < clock w ->
  refreshTokens_try E t w = (Throw RefreshTokenExpiredError, w).
Proof.
  intros Hv Hfind Hrev Hexp. unfold refreshTokens_try.
  rewrite (bind_run_Ok _ _ _ _ _ Hv).
  unfold bind, refreshToken_findUnique, get_world, ret, Date_now. simpl.
  rewrite Hfind, Hrev.
  apply Z.ltb_lt in Hexp. rewrite Hexp. reflexivity.
Qed.

(** C2. A refresh token whose record exists, is not revoked and has its
    expiry in the past is rejected, but with the invalid-refresh-token
    exception: the expiry exception thrown inside the [try] block is
    replaced by the handler, so the caller never sees it. *)
Theorem expired_refresh_reported_invalid E t w stored :
  find (has_token t) (refreshToken_table w) = Some stored ->
  isRevoked stored = false ->
  expiresAt stored < clock w ->
  fst (refreshTokens E t w) = Throw InvalidRefreshTokenError
  /\ fst (refreshTokens E t w) <> Throw RefreshTokenExpiredError.
Proof.
  intros Hfind Hrev Hexp.
  assert (H : fst (refreshTokens E t w) = Throw InvalidRefreshTokenError).
  { unfold refreshTokens, try_catch.
    destruct (jwt_verify E t (JWT_REFRESH_SECRET (configService E)) w)
      as [[payload | e] w1] eqn:Hv.
    - destruct (jwt_verify_Ok _ _ _ _ _ _ Hv) as (-> & _ & _).
      rewrite (refreshTokens_try_expired E t w payload stored Hv Hfind Hrev Hexp).
      reflexivity.
    - unfold refreshTokens_try.
      rewrite (bind_run_Throw _ _ _ _ _ Hv). reflexivity. }
  split; [exact H |]. rewrite H. discriminate.
Qed.

Lemma refreshToken_create_Ok E t uid expires revoked w r w' :
  refreshToken_create E t uid expires revoked w = (Ok r, w') ->
  refreshToken_table w' = (refreshToken_table w ++ [r])%list
  /\ token r = t /\ userId r = uid /\ expiresAt r = expires
  /\ isRevoked r = revoked /\ rt_createdAt r = clock w.
Proof.
  unfold refreshToken_create, bind, get_world. simpl.
  destruct (existsb (has_token t) (refreshToken_table w)); simpl;
    [discriminate |].
  intros H. injection H as <- <-. simpl. repeat split; reflexivity.
Qed.

Lemma storeRefreshToken_Ok E uid t w w' :
  storeRefreshToken E uid t w = (Ok tt, w') ->
  exists r,
    refreshToken_table w' = (refreshToken_table w ++ [r])%list
    /\ token r = t /\ userId r = uid /\ isRevoked r = false
    /\ expiresAt r = add_days (clock w) 7.
Proof.
  unfold storeRefreshToken. unfold bind at 1, Date_now.
  intros H. apply bind_Ok in H as (r & w1 & Hc & Hret).
  injection Hret as <-.
  apply refreshToken_create_Ok in Hc as (Ht & H1 & H2 & H3 & H4 & _).
  exists r. auto.
Qed.

Lemma jwt_signAsync_Ok E uid e r secret expiresIn w t w' :
  jwt_signAsync E uid e r secret expiresIn w = (Ok t, w') ->
  w' = w /\ exists ttl, timespan E expiresIn = Some ttl
                        /\ t = jws_encode E secret (claims_at (clock w) ttl uid e r).
Proof.
  unfold jwt_signAsync, bind, Date_now. simpl.
  destruct (timespan E expiresIn) as [ttl |]; [| discriminate].
  intros H. injection H as <- <-. split; [reflexivity |].
  exists ttl. auto.
Qed.

Lemma generateTokens_Ok E uid e r w tokens w' :
  generateTokens E uid e r w = (Ok tokens, w') ->
  w' = w /\ exists ttl, refresh_ttl E = Some ttl
    /\ refreshToken tokens
       = jws_encode E (JWT_REFRESH_SECRET (configService E))
           (claims_at (clock w) ttl uid e r).
Proof.
  unfold generateTokens. intros H.
  apply bind_Ok in H as (a & w1 & Ha & H).
  apply bind_Ok in H as (t & w2 & Ht & H).
  injection H as <- <-.
  apply jwt_signAsync_Ok in Ha as (-> & _).
  apply jwt_signAsync_Ok in Ht as (-> & ttl & Hspan & ->).
  split; [reflexivity |]. exists ttl. auto.
Qed.

(** C4. Issuing a pair and storing its refresh token: the record is
    created not revoked, for the user and the token of the pair, and its
    expiry is seven days after the clock, whereas the token signed expires
    after the configured lifetime; the two agree only when that lifetime is
    seven days. *)
Theorem stored_expiry_is_seven_days E uid e r w tokens w1 w2 ttl :
  refresh_ttl E = Some ttl ->
  generateTokens E uid e r w = (Ok tokens, w1) ->
  storeRefreshToken E uid (refreshToken tokens) w1 = (Ok tt, w2) ->
  refreshToken tokens
  = jws_encode E (JWT_REFRESH_SECRET (configService E))
      (mkJwtPayload uid e r (seconds (clock w)) (seconds (clock w) + ttl))
  /\ exists row,
       refreshToken_table w2 = (refreshToken_table w ++ [row])%list
       /\ token row = refreshToken tokens /\ userId row = uid
       /\ isRevoked row = false
       /\ expiresAt row = clock w + 7 * 86400000.
Proof.
  intros Httl Hgen Hstore.
  apply generateTokens_Ok in Hgen as (-> & ttl' & Httl' & Htok).
  rewrite Httl in Httl'. injection Httl' as <-.
  split; [exact Htok |].
  apply storeRefreshToken_Ok in Hstore as (row & Htab & H1 & H2 & H3 & H4).
  exists row. repeat split; assumption.
Qed.

(** ** Login: the order of the checks, and what a rejection reveals *)

Lemma login_unknown_email E dto w :
  find (has_email (login_email dto)) (user_table w) = None ->
  login E dto w = (Throw InvalidCredentialsError, w).
Proof.
  intros Hfind. unfold login, UsersService_findByEmail, user_findUnique_email.
  unfold bind, get_world, ret. simpl. rewrite Hfind. reflexivity.
Qed.

Lemma login_inactive E dto w u :
  find (has_email (login_email dto)) (user_table w) = Some u ->
  isActive u = false ->
  login E dto w = (Throw AccountInactiveError, w).
Proof.
  intros Hfind Hact.
  unfold login, UsersService_findByEmail, user_findUnique_email.
  unfold bind, get_world, ret. simpl. rewrite Hfind, Hact. reflexivity.
Qed.

Lemma login_wrong_password E dto w u :
  find (has_email (login_email dto)) (user_table w) = Some u ->
  isActive u = true ->
  bcrypt_compare E (login_password dto) (password u) = false ->
  login E dto w = (Throw InvalidCredentialsError, w).
Proof.
  intros Hfind Hact Hpw.
  unfold login, UsersService_findByEmail, user_findUnique_email.
  unfold bind, get_world, ret. simpl. rewrite Hfind, Hact, Hpw. reflexivity.
Qed.

(** C3, as the code has it. [login] checks the active flag before it
    compares the password: a deactivated user is rejected with the
    account-inactive exception whatever the password supplied, and a wrong
    password is answered with the invalid-credentials exception only for
    an active user. *)
Theorem login_checks_active_before_password E dto w u :
  find (has_email (login_email dto)) (user_table w) = Some u ->
  (isActive u = false ->
   fst (login E dto w) = Throw AccountInactiveError)
  /\ (isActive u = true ->
      bcrypt_compare E (login_password dto) (password u) = false ->
      fst (login E dto w) = Throw InvalidCredentialsError).
Proof.
  intros Hfind. split.
  - intros Hact. rewrite (login_inactive E dto w u Hfind Hact). reflexivity.
  - intros Hact Hpw.
    rewrite (login_wrong_password E dto w u Hfind Hact Hpw). reflexivity.
Qed.

(** C8. [login] does not tell an unknown email from a wrong password: an
    email no user has, and an active user's email with a password that
    does not match, are both rejected with the invalid-credentials
    exception, so the two results are the same, and neither changes the
    state. *)
Theorem login_failure_hides_existence E dto1 w1 dto2 w2 u :
  find (has_email (login_email dto1)) (user_table w1) = None ->
  find (has_email (login_email dto2)) (user_table w2) = Some u ->
  isActive u = true ->
  bcrypt_compare E (login_password dto2) (password u) = false ->
  login E dto1 w1 = (Throw InvalidCredentialsError, w1)
  /\ login E dto2 w2 = (Throw InvalidCredentialsError, w2)
  /\ fst (login E dto1 w1) = fst (login E dto2 w2).
Proof.
  intros Hnone Hsome Hact Hpw.
  rewrite (login_unknown_email E dto1 w1 Hnone).
  rewrite (login_wrong_password E dto2 w2 u Hsome Hact Hpw).
  repeat split.
Qed.

(** ** Issuance: a pair is returned only with its record *)

Lemma storeRefreshToken_persisted E uid t w w' :
  storeRefreshToken E uid t w = (Ok tt, w') -> persisted t uid w'.
Proof.
  intros H. apply storeRefreshToken_Ok in H as (r & Htab & H1 & H2 & H3 & _).
  exists r. rewrite Htab. repeat split; auto.
  apply in_or_app. right. left. reflexivity.
Qed.

Lemma register_Ok_persisted E dto w resp w' :
  register E dto w = (Ok resp, w') ->
  persisted (refreshToken (resp_tokens resp)) (o_id (resp_user resp)) w'.
Proof.
  unfold register. intros H.
  apply bind_Ok in H as (existing & w0 & _ & H).
  destruct existing as [u |]; [discriminate |].
  apply bind_Ok in H as (user & w1 & _ & H).
  apply bind_Ok in H as (tokens & w2 & _ & H).
  apply bind_Ok in H as ([] & w3 & Hstore & H).
  injection H as <- <-. simpl.
  eapply storeRefreshToken_persisted. exact Hstore.
Qed.

Lemma login_Ok_persisted E dto w resp w' :
  login E dto w = (Ok resp, w') ->
  persisted (refreshToken (resp_tokens resp)) (o_id (resp_user resp)) w'.
Proof.
  unfold login. intros H.
  apply bind_Ok in H as (found & w0 & _ & H).
  destruct found as [user |]; [| discriminate].
  destruct (negb (isActive user)); [discriminate |].
  destruct (negb (bcrypt_compare E (login_password dto) (password user)));
    [discriminate |].
  apply bind_Ok in H as (tokens & w2 & _ & H).
  apply bind_Ok in H as ([] & w3 & Hstore & H).
  injection H as <- <-. simpl.
  eapply storeRefreshToken_persisted. exact Hstore.
Qed.

Lemma register_store_fails E dto w user w1 tokens w2 e w3 :
  find (has_email (dto_email dto)) (user_table w) = None ->
  UsersService_create E dto w = (Ok user, w1) ->
  generateTokens E (o_id user) (o_email user) (o_role user) w1
  = (Ok tokens, w2) ->
  storeRefreshToken E (o_id user) (refreshToken tokens) w2 = (Throw e, w3) ->
  register E dto w = (Throw e, w3).
Proof.
  intros Hfind Hcreate Hgen Hstore.
  unfold register, UsersService_findByEmail, user_findUnique_email.
  unfold bind at 1 2, get_world, ret. simpl. rewrite Hfind.
  rewrite (bind_run_Ok _ _ _ _ _ Hcreate).
  rewrite (bind_run_Ok _ _ _ _ _ Hgen).
  rewrite (bind_run_Throw _ _ _ _ _ Hstore). reflexivity.
Qed.

Lemma login_store_fails E dto w user tokens w2 e w3 :
  find (has_email (login_email dto)) (user_table w) = Some user ->
  isActive user = true ->
  bcrypt_compare E (login_password dto) (password user) = true ->
  generateTokens E (id user) (email user) (role user) w = (Ok tokens, w2) ->
  storeRefreshToken E (id user) (refreshToken tokens) w2 = (Throw e, w3) ->
  login E dto w = (Throw e, w3).
Proof.
  intros Hfind Hact Hpw Hgen Hstore.
  unfold login, UsersService_findByEmail, user_findUnique_email.
  unfold bind at 1 2, get_world, ret. simpl. rewrite Hfind, Hact, Hpw. simpl.
  rewrite (bind_run_Ok _ _ _ _ _ Hgen).
  rewrite (bind_run_Throw _ _ _ _ _ Hstore). reflexivity.
Qed.

(** C5. Issuance is all-or-nothing for [register] and [login]: when either
    returns a pair, a record that is not revoked is in the table for the
    refresh token of the pair and the user returned; and when the write of
    [storeRefreshToken] is rejected, at the state and for the pair the
    method has reached, the method is rejected with the same exception and
    returns no pair. *)
Theorem issuance_all_or_nothing E :
  (forall dto w resp w',
      register E dto w = (Ok resp, w') ->
      persisted (refreshToken (resp_tokens resp)) (o_id (resp_user resp)) w')
  /\ (forall dto w resp w',
         login E dto w = (Ok resp, w') ->
         persisted (refreshToken (resp_tokens resp))
           (o_id (resp_user resp)) w')
  /\ (forall dto w user w1 tokens w2 e w3,
         find (has_email (dto_email dto)) (user_table w) = None ->
         UsersService_create E dto w = (Ok user, w1) ->
         generateTokens E (o_id user) (o_email user) (o_role user) w1
         = (Ok tokens, w2) ->
         storeRefreshToken E (o_id user) (refreshToken tokens) w2
         = (Throw e, w3) ->
         register E dto w = (Throw e, w3))
  /\ (forall dto w user tokens w2 e w3,
         find (has_email (login_email dto)) (user_table w) = Some user ->
         isActive user = true ->
         bcrypt_compare E (login_password dto) (password user) = true ->
         generateTokens E (id user) (email user) (role user) w
         = (Ok tokens, w2) ->
         storeRefreshToken E (id user) (refreshToken tokens) w2
         = (Throw e, w3) ->
         login E dto w = (Throw e, w3)).
Proof.
  split; [| split; [| split]].
  - apply register_Ok_persisted.
  - apply login_Ok_persisted.
  - apply register_store_fails.
  - apply login_store_fails.
Qed.

(** ** Logout *)

Lemma revoke_matching_idempotent t r :
  revoke_matching t (revoke_matching t r) = revoke_matching t r.
Proof.
  unfold revoke_matching. destruct (has_token t r) eqn:H.
  - rewrite has_token_revoke, H. reflexivity.
  - rewrite H. reflexivity.
Qed.

Lemma has_token_revoke_matching t t' r :
  has_token t (revoke_matching t' r) = has_token t r.
Proof. unfold revoke_matching. destruct (has_token t' r); reflexivity. Qed.

Lemma logout_run t w :
  logout t w
  = (Ok (mkMessage "Logged out successfully"),
     set_refreshTokens (map (revoke_matching t) (refreshToken_table w)) w).
Proof. reflexivity. Qed.

(** C7. [logout] always answers with its success message, for a token
    that is stored, one that is already revoked and one that is unknown
    alike; and a second [logout] with the same string returns what the
    first returned and leaves the state the first left. *)
Theorem logout_succeeds_and_is_idempotent t w :
  fst (logout t w) = Ok (mkMessage "Logged out successfully")
  /\ logout t (snd (logout t w)) = logout t w.
Proof.
  split; [reflexivity |].
  rewrite !logout_run. simpl. unfold set_refreshTokens. simpl.
  rewrite map_map.
  rewrite (map_ext _ _ (revoke_matching_idempotent t)). reflexivity.
Qed.

(** C10. [logout] goes by the string alone: whoever the authenticated
    caller is and whatever the string (no signature, expiry or owner is
    looked at), the handler succeeds; every record whose token is that
    string has its revoked flag set afterwards, whoever owns it and
    whatever the flag was, its other columns being as they were; and every
    other record is left as it was. *)
Theorem logout_revokes_by_string_match caller dto w :
  AuthController_logout caller dto w
  = (Ok (mkMessage "Logged out successfully"),
     set_refreshTokens
       (map (revoke_matching (dto_refreshToken dto)) (refreshToken_table w)) w)
  /\ (forall n r,
         nth_error (refreshToken_table w) n = Some r ->
         token r = dto_refreshToken dto ->
         exists r',
           nth_error
             (refreshToken_table (snd (AuthController_logout caller dto w))) n
           = Some r'
           /\ isRevoked r' = true
           /\ rt_id r' = rt_id r /\ token r' = token r
           /\ userId r' = userId r /\ expiresAt r' = expiresAt r
           /\ rt_createdAt r' = rt_createdAt r)
  /\ (forall n r,
         nth_error (refreshToken_table w) n = Some r ->
         token r <> dto_refreshToken dto ->
         nth_error
           (refreshToken_table (snd (AuthController_logout caller dto w))) n
         = Some r)
  /\ user_table (snd (AuthController_logout caller dto w)) = user_table w.
Proof.
  unfold AuthController_logout. rewrite logout_run.
  split; [reflexivity |]. cbn [snd refreshToken_table set_refreshTokens].
  split; [| split; [| reflexivity]].
  - intros n r Hn Htok. exists (revoke r). rewrite nth_error_map, Hn.
    cbn [option_map]. split; [| repeat split; reflexivity].
    unfold revoke_matching, has_token.
    rewrite Htok, String.eqb_refl. reflexivity.
  - intros n r Hn Htok. rewrite nth_error_map, Hn. cbn [option_map]. f_equal.
    unfold revoke_matching, has_token.
    destruct (String.eqb_spec (token r) (dto_refreshToken dto));
      [contradiction | reflexivity].
Qed.

(** ** Responses and the password column *)

Lemma userSelect_object_no_password (o : UserObject userSelect) :
  has_property "password" o = false.
Proof. reflexivity. Qed.

Lemma rest_without_password_no_password s (o : UserObject s) :
  has_property "password" (rest_without_password o) = false.
Proof.
  unfold has_property, properties. simpl.
  destruct s as [[] [] ? [] [] [] [] [] []]; reflexivity.
Qed.

(** C9. No user object a service returns has a [password] property:
    [userSelect] does not select the column, so the objects returned by
    [register], [findById], [findAll], [update] and [assignRole] lack it;
    and [login], whose row is fetched with every column, the password
    among them, returns what is left once that property is taken out. *)
Theorem responses_carry_no_password E :
  sel_password userSelect = false
  /\ (forall dto w resp w',
         register E dto w = (Ok resp, w') ->
         has_property "password" (resp_user resp) = false)
  /\ (forall i w o w',
         UsersService_findById i w = (Ok o, w') ->
         has_property "password" o = false)
  /\ (forall w os w',
         UsersService_findAll w = (Ok os, w') ->
         forall o, In o os -> has_property "password" o = false)
  /\ (forall i dto w o w',
         UsersService_update E i dto w = (Ok o, w') ->
         has_property "password" o = false)
  /\ (forall i r w o w',
         UsersService_assignRole i r w = (Ok o, w') ->
         has_property "password" o = false)
  /\ (forall dto w resp w',
         login E dto w = (Ok resp, w') ->
         has_property "password" (resp_user resp) = false
         /\ exists u,
              find (has_email (login_email dto)) (user_table w) = Some u
              /\ has_property "password" (select_user all_columns u) = true
              /\ resp_user resp
                 = rest_without_password (select_user all_columns u)).
Proof.
  split; [reflexivity |].
  repeat split; intros; try apply userSelect_object_no_password.
  unfold login in H.
  apply bind_Ok in H as (found & w0 & Hfind & H).
  unfold UsersService_findByEmail, user_findUnique_email, bind, get_world, ret
    in Hfind. simpl in Hfind. injection Hfind as <- <-.
  destruct (find (has_email (login_email dto)) (user_table w)) as [user |];
    [| discriminate].
  destruct (negb (isActive user)); [discriminate |].
  destruct (negb (bcrypt_compare E (login_password dto) (password user)));
    [discriminate |].
  apply bind_Ok in H as (tokens & w2 & _ & H).
  apply bind_Ok in H as ([] & w3 & _ & H).
  injection H as <- <-. exists user. repeat split.
Qed.

(** ** The scenarios *)

(** The states of the scenarios are those the services produce. *)
Lemma scenario_states_reached :
  snd (register (Scenario.env None) Scenario.alice (Scenario.empty_at 1000000))
  = Scenario.registered
  /\ refreshTokens (Scenario.env None) Scenario.alice_refresh
       (set_clock 1005000 Scenario.registered)
     = (Ok Scenario.rotated_pair, Scenario.rotated)
  /\ snd (register (Scenario.env (Some "30d")) Scenario.alice
            (Scenario.empty_at 1000000))
     = Scenario.registered_30d
  /\ snd (register (Scenario.env None) Scenario.bob
            (set_clock 2000000 Scenario.registered))
     = Scenario.both_registered
  /\ snd (UsersService_deactivate "id-1" Scenario.registered)
     = Scenario.alice_deactivated.
Proof. repeat split; vm_compute; reflexivity. Qed.

(** C1 at Alice's rotation: her first refresh is answered, and after a
    login, a logout of the new token and a registration, her old token is
    rejected. *)
Lemma refresh_token_single_use_witness :
  refreshTokens (Scenario.env None) Scenario.alice_refresh
    (set_clock 1005000 Scenario.registered)
  = (Ok Scenario.rotated_pair, Scenario.rotated)
  /\ fst (refreshTokens (Scenario.env None) Scenario.alice_refresh
            (set_clock 3000000
               (serve_all (Scenario.env None)
                  [(1200000, Login Scenario.alice_login);
                   (1300000, Logout (refreshToken Scenario.rotated_pair));
                   (2000000, Register Scenario.bob)]
                  Scenario.rotated)))
     = Throw InvalidRefreshTokenError.
Proof.
  split.
  - vm_compute. reflexivity.
  - apply (refresh_token_single_use (Scenario.env None) Scenario.alice_refresh
             (set_clock 1005000 Scenario.registered) Scenario.rotated_pair
             Scenario.rotated).
    vm_compute. reflexivity.
Defined.

(** C2 at the thirty-day configuration: eight days after the token was
    issued it still passes [verify], its record has expired, the [try]
    block throws the expiry exception, and the caller receives the
    invalid-refresh-token exception. *)
Lemma expired_refresh_reported_invalid_witness :
  find (has_token Scenario.alice_refresh_30d)
    (refreshToken_table Scenario.eight_days_later)
  = Some Scenario.alice_record_30d
  /\ isRevoked Scenario.alice_record_30d = false
  /\ expiresAt Scenario.alice_record_30d < clock Scenario.eight_days_later
  /\ fst (refreshTokens_try (Scenario.env (Some "30d"))
            Scenario.alice_refresh_30d Scenario.eight_days_later)
     = Throw RefreshTokenExpiredError
  /\ fst (refreshTokens (Scenario.env (Some "30d"))
            Scenario.alice_refresh_30d Scenario.eight_days_later)
     = Throw InvalidRefreshTokenError
  /\ fst (refreshTokens (Scenario.env (Some "30d"))
            Scenario.alice_refresh_30d Scenario.eight_days_later)
     <> Throw RefreshTokenExpiredError.
Proof.
  split; [reflexivity |]. split; [reflexivity |].
  split; [vm_compute; reflexivity |]. split; [vm_compute; reflexivity |].
  apply (expired_refresh_reported_invalid (Scenario.env (Some "30d"))
           Scenario.alice_refresh_30d Scenario.eight_days_later
           Scenario.alice_record_30d).
  - reflexivity.
  - reflexivity.
  - vm_compute. reflexivity.
Defined.

(** C3 as the specification words it fails on Alice's deactivated account:
    she exists, is deactivated, and the password supplied is wrong, yet
    [login] answers with the account-inactive exception and not with the
    invalid-credentials one. *)
Lemma login_inactive_wrong_password_counterexample :
  find (has_email (login_email Scenario.wrong_password))
    (user_table Scenario.alice_deactivated)
  = Some (set_isActive false Scenario.alice_row)
  /\ isActive (set_isActive false Scenario.alice_row) = false
  /\ bcrypt_compare (Scenario.env None)
       (login_password Scenario.wrong_password)
       (password (set_isActive false Scenario.alice_row))
     = false
  /\ fst (login (Scenario.env None) Scenario.wrong_password
            Scenario.alice_deactivated)
     = Throw AccountInactiveError
  /\ fst (login (Scenario.env None) Scenario.wrong_password
            Scenario.alice_deactivated)
     <> Throw InvalidCredentialsError.
Proof.
  repeat split; try (vm_compute; reflexivity).
  vm_compute. discriminate.
Qed.

(** C3 as the code has it, on the same account and on the active one. *)
Lemma login_checks_active_before_password_witness :
  find (has_email (login_email Scenario.wrong_password))
    (user_table Scenario.alice_deactivated)
  = Some (set_isActive false Scenario.alice_row)
  /\ fst (login (Scenario.env None) Scenario.wrong_password
            Scenario.alice_deactivated)
     = Throw AccountInactiveError
  /\ fst (login (Scenario.env None) Scenario.wrong_password
            Scenario.registered)
     = Throw InvalidCredentialsError.
Proof.
  split; [reflexivity |]. split.
  - apply (login_checks_active_before_password (Scenario.env None)
             Scenario.wrong_password Scenario.alice_deactivated
             (set_isActive false Scenario.alice_row)); reflexivity.
  - apply (login_checks_active_before_password (Scenario.env None)
             Scenario.wrong_password Scenario.registered Scenario.alice_row);
      reflexivity.
Defined.

(** C4 at the thirty-day configuration: the token issued to Alice at
    second 1000 expires at second 2593000, the record stored for it at
    millisecond 605800000. *)
Lemma stored_expiry_is_seven_days_witness :
  refresh_ttl (Scenario.env (Some "30d")) = Some 2592000
  /\ (refreshToken
        (mkTokenPair "access-secret|id-1|alice@example.com|USER|1000|1900"
           Scenario.alice_refresh_30d)
      = jws_encode (Scenario.env (Some "30d")) "refresh-secret"
          (mkJwtPayload "id-1" "alice@example.com" USER 1000 2593000)
      /\ exists row,
           refreshToken_table Scenario.registered_30d = [row]
           /\ token row = Scenario.alice_refresh_30d
           /\ userId row = "id-1"
           /\ isRevoked row = false
           /\ expiresAt row = 605800000)
  /\ 2593000 * 1000 <> 605800000.
Proof.
  split; [reflexivity |]. split; [| discriminate].
  apply (stored_expiry_is_seven_days (Scenario.env (Some "30d"))
           "id-1" "alice@example.com" USER
           (mkWorld [Scenario.alice_row] [] 1000000 2)
           (mkTokenPair "access-secret|id-1|alice@example.com|USER|1000|1900"
              Scenario.alice_refresh_30d)
           (mkWorld [Scenario.alice_row] [] 1000000 2)
           Scenario.registered_30d 2592000).
  - reflexivity.
  - vm_compute. reflexivity.
  - vm_compute. reflexivity.
Defined.

(** C5 at Alice's logins: a login two and a half seconds after her
    registration returns a pair whose record is stored; a login within the
    second of her registration signs the very token she already holds, the
    write of its record is rejected as a duplicate, and so is the login. *)
Lemma issuance_all_or_nothing_witness :
  persisted "refresh-secret|id-1|alice@example.com|USER|1002|605802" "id-1"
    (snd (login (Scenario.env None) Scenario.alice_login
            (set_clock 1002500 Scenario.registered)))
  /\ storeRefreshToken (Scenario.env None) "id-1" Scenario.alice_refresh
       (set_clock 1000500 Scenario.registered)
     = (Throw (PrismaClientKnownRequestError "P2002"),
        set_clock 1000500 Scenario.registered)
  /\ login (Scenario.env None) Scenario.alice_login
       (set_clock 1000500 Scenario.registered)
     = (Throw (PrismaClientKnownRequestError "P2002"),
        set_clock 1000500 Scenario.registered).
Proof.
  split; [| split].
  - apply (proj1 (proj2 (issuance_all_or_nothing (Scenario.env None)))
             Scenario.alice_login (set_clock 1002500 Scenario.registered)
             (mkAuthResponse
                (rest_without_password
                   (select_user all_columns Scenario.alice_row))
                (mkTokenPair
                   "access-secret|id-1|alice@example.com|USER|1002|1902"
                   "refresh-secret|id-1|alice@example.com|USER|1002|605802"))).
    vm_compute. reflexivity.
  - vm_compute. reflexivity.
  - apply (proj2 (proj2 (proj2 (issuance_all_or_nothing (Scenario.env None))))
             Scenario.alice_login (set_clock 1000500 Scenario.registered)
             Scenario.alice_row
             (mkTokenPair
                "access-secret|id-1|alice@example.com|USER|1000|1900"
                Scenario.alice_refresh)
             (set_clock 1000500 Scenario.registered)).
    + reflexivity.
    + reflexivity.
    + reflexivity.
    + vm_compute. reflexivity.
    + vm_compute. reflexivity.
Defined.

(** C6 at a logout and at a refresh of Alice's token, seen from her
    record and from Bob's. *)
Lemma refresh_records_only_revoked_witness :
  nth_error (refreshToken_table Scenario.both_registered) 0
  = Some Scenario.alice_record
  /\ (exists r',
         nth_error
           (refreshToken_table
              (handle (Scenario.env None) (Refresh Scenario.alice_refresh)
                 (set_clock 2500000 Scenario.both_registered))) 0
         = Some r'
         /\ (r' = Scenario.alice_record \/ r' = revoke Scenario.alice_record)
         /\ token r' = token Scenario.alice_record
         /\ userId r' = userId Scenario.alice_record
         /\ expiresAt r' = expiresAt Scenario.alice_record
         /\ rt_createdAt r' = rt_createdAt Scenario.alice_record).
Proof.
  split; [reflexivity |].
  apply (refresh_records_only_revoked (Scenario.env None)
           (Refresh Scenario.alice_refresh)
           (set_clock 2500000 Scenario.both_registered) 0
           Scenario.alice_record).
  reflexivity.
Defined.

(** C8 on the state where only Alice is registered. *)
Lemma login_failure_hides_existence_witness :
  find (has_email (login_email Scenario.unknown_email))
    (user_table Scenario.registered) = None
  /\ find (has_email (login_email Scenario.wrong_password))
       (user_table Scenario.registered) = Some Scenario.alice_row
  /\ isActive Scenario.alice_row = true
  /\ bcrypt_compare (Scenario.env None)
       (login_password Scenario.wrong_password)
       (password Scenario.alice_row) = false
  /\ login (Scenario.env None) Scenario.unknown_email Scenario.registered
     = (Throw InvalidCredentialsError, Scenario.registered)
  /\ login (Scenario.env None) Scenario.wrong_password Scenario.registered
     = (Throw InvalidCredentialsError, Scenario.registered)
  /\ fst (login (Scenario.env None) Scenario.unknown_email Scenario.registered)
     = fst (login (Scenario.env None) Scenario.wrong_password
              Scenario.registered).
Proof.
  split; [reflexivity |]. split; [reflexivity |].
  split; [reflexivity |]. split; [reflexivity |].
  apply (login_failure_hides_existence (Scenario.env None)
           Scenario.unknown_email Scenario.registered
           Scenario.wrong_password Scenario.registered Scenario.alice_row);
    reflexivity.
Defined.

(** C9 at Alice's registration and login: both answer, the stored row
    has the password column, and neither user object has the property. *)
Lemma responses_carry_no_password_witness :
  is_ok (fst (register (Scenario.env None) Scenario.alice
                (Scenario.empty_at 1000000))) = true
  /\ has_property "password"
       (select_user userSelect Scenario.alice_row) = false
  /\ is_ok (fst (login (Scenario.env None) Scenario.alice_login
                   (set_clock 1002500 Scenario.registered))) = true
  /\ has_property "password"
       (select_user all_columns Scenario.alice_row) = true
  /\ has_property "password"
       (rest_without_password (select_user all_columns Scenario.alice_row))
     = false.
Proof.
  split; [reflexivity |]. split.
  - apply (proj1 (proj2 (responses_carry_no_password (Scenario.env None)))
             Scenario.alice (Scenario.empty_at 1000000)
             (mkAuthResponse (select_user userSelect Scenario.alice_row)
                (mkTokenPair
                   "access-secret|id-1|alice@example.com|USER|1000|1900"
                   Scenario.alice_refresh))
             Scenario.registered).
    vm_compute. reflexivity.
  - split; [reflexivity |]. split; [reflexivity |].
    apply (proj2 (proj2 (proj2 (proj2 (proj2 (proj2
             (responses_carry_no_password (Scenario.env None)))))))
             Scenario.alice_login (set_clock 1002500 Scenario.registered)
             (mkAuthResponse
                (rest_without_password
                   (select_user all_columns Scenario.alice_row))
                (mkTokenPair
                   "access-secret|id-1|alice@example.com|USER|1002|1902"
                   "refresh-secret|id-1|alice@example.com|USER|1002|605802"))
             (snd (login (Scenario.env None) Scenario.alice_login
                     (set_clock 1002500 Scenario.registered)))).
    vm_compute. reflexivity.
Defined.

(** C10 with Bob as the caller and Alice's token as the string: her record,
    which was not revoked, is revoked afterwards, and his is untouched; and
    a string that is no token at all is answered with the same success. *)
Lemma logout_revokes_by_string_match_witness :
  userId Scenario.alice_record
  <> o_id (select_user userSelect Scenario.bob_row)
  /\ nth_error (refreshToken_table Scenario.both_registered) 0
     = Some Scenario.alice_record
  /\ isRevoked Scenario.alice_record = false
  /\ nth_error
       (refreshToken_table
          (snd (AuthController_logout
                  (select_user userSelect Scenario.bob_row)
                  (mkRefreshTokenDto Scenario.alice_refresh)
                  Scenario.both_registered))) 0
     = Some (mkRefreshToken "id-2" Scenario.alice_refresh "id-1" 605800000
               true 1000000)
  /\ (exists r',
         nth_error
           (refreshToken_table
              (snd (AuthController_logout
                      (select_user userSelect Scenario.bob_row)
                      (mkRefreshTokenDto Scenario.alice_refresh)
                      Scenario.both_registered))) 0
         = Some r'
         /\ isRevoked r' = true
         /\ rt_id r' = rt_id Scenario.alice_record
         /\ token r' = token Scenario.alice_record
         /\ userId r' = userId Scenario.alice_record
         /\ expiresAt r' = expiresAt Scenario.alice_record
         /\ rt_createdAt r' = rt_createdAt Scenario.alice_record)
  /\ nth_error
       (refreshToken_table
          (snd (AuthController_logout
                  (select_user userSelect Scenario.bob_row)
                  (mkRefreshTokenDto Scenario.alice_refresh)
                  Scenario.both_registered))) 1
     = Some Scenario.bob_record
  /\ jws_decode (Scenario.env None) "refresh-secret" "no-token" = None
  /\ fst (AuthController_logout (select_user userSelect Scenario.bob_row)
            (mkRefreshTokenDto "no-token") Scenario.both_registered)
     = Ok (mkMessage "Logged out successfully").
Proof.
  split; [vm_compute; discriminate |]. split; [reflexivity |].
  split; [reflexivity |]. split; [reflexivity |].
  split; [| split; [| split; [reflexivity |]]].
  - apply (proj1 (proj2 (logout_revokes_by_string_match
                           (select_user userSelect Scenario.bob_row)
                           (mkRefreshTokenDto Scenario.alice_refresh)
                           Scenario.both_registered)) 0%nat
             Scenario.alice_record); reflexivity.
  - apply (proj1 (proj2 (proj2 (logout_revokes_by_string_match
                                  (select_user userSelect Scenario.bob_row)
                                  (mkRefreshTokenDto Scenario.alice_refresh)
                                  Scenario.both_registered))) 1%nat
             Scenario.bob_record); [reflexivity | vm_compute; discriminate].
  - rewrite (proj1 (logout_revokes_by_string_match
                      (select_user userSelect Scenario.bob_row)
                      (mkRefreshTokenDto "no-token")
                      Scenario.both_registered)).
    reflexivity.
Defined.

(** ** Registration *)

Lemma find_None_existsb {A} (p : A -> bool) (l : list A) :
  find p l = None <-> existsb p l = false.
Proof.
  induction l as [| x l IH]; simpl.
  - split; reflexivity.
  - destruct (p x); simpl.
    + split; discriminate.
    + exact IH.
Qed.

Lemma existsb_has_token_app t rows row :
  existsb (has_token t) (rows ++ [row])
  = orb (existsb (has_token t) rows) (has_token t row).
Proof. rewrite existsb_app. simpl. rewrite Bool.orb_false_r. reflexivity. Qed.

Lemma storeRefreshToken_run E uid t w :
  storeRefreshToken E uid t w
  = if existsb (has_token t) (refreshToken_table w)
    then (Throw (PrismaClientKnownRequestError "P2002"), w)
    else (Ok tt, with_record E uid t w).
Proof.
  unfold storeRefreshToken, refreshToken_create, bind, get_world, Date_now.
  simpl. destruct (existsb (has_token t) (refreshToken_table w)); reflexivity.
Qed.

Lemma generateTokens_run E uid e r w :
  generateTokens E uid e r w
  = match access_ttl E, refresh_ttl E with
    | Some attl, Some rttl => (Ok (pair_at E (clock w) attl rttl uid e r), w)
    | _, _ => (Throw (Error (invalid_expiresIn E)), w)
    end.
Proof.
  unfold generateTokens, jwt_signAsync, access_ttl, refresh_ttl, bind, Date_now.
  simpl.
  destruct (timespan E
              (or_default (JWT_ACCESS_TOKEN_EXPIRATION (configService E)) "15m"));
    simpl; [| reflexivity].
  destruct (timespan E
              (or_default (JWT_REFRESH_TOKEN_EXPIRATION (configService E)) "7d"));
    reflexivity.
Qed.

Lemma UsersService_create_run E dto w :
  UsersService_create E dto w
  = if existsb (has_email (dto_email dto)) (user_table w)
    then (Throw (PrismaClientKnownRequestError "P2002"),
          set_drawn (S (drawn w)) w)
    else (Ok (select_user userSelect (registered_user E dto w)),
          with_user E dto w).
Proof.
  unfold UsersService_create, user_create, bind, get_world, draw, Date_now.
  simpl.
  destruct (existsb (has_email (dto_email dto)) (user_table w)); reflexivity.
Qed.

(** What [register] computes, case by case. *)
Lemma register_run E dto w :
  register E dto w
  = match find (has_email (dto_email dto)) (user_table w) with
    | Some _ => (Throw ConflictError, w)
    | None =>
        let u := registered_user E dto w in
        match access_ttl E, refresh_ttl E with
        | Some attl, Some rttl =>
            let pair := pair_at E (clock w) attl rttl (id u) (email u) (role u) in
            if existsb (has_token (refreshToken pair)) (refreshToken_table w)
            then (Throw (PrismaClientKnownRequestError "P2002"),
                  with_user E dto w)
            else (Ok (mkAuthResponse (select_user userSelect u) pair),
                  with_record E (id u) (refreshToken pair) (with_user E dto w))
        | _, _ => (Throw (Error (invalid_expiresIn E)),
                   with_user E dto w)
        end
    end.
Proof.
  unfold register, UsersService_findByEmail, user_findUnique_email.
  unfold bind at 1 2, get_world, ret. simpl.
  destruct (find (has_email (dto_email dto)) (user_table w)) as [u |] eqn:Hf;
    [reflexivity |].
  apply find_None_existsb in Hf.
  unfold bind at 1. rewrite UsersService_create_run, Hf.
  unfold bind at 1. rewrite generateTokens_run. simpl.
  destruct (access_ttl E) as [attl |]; [| reflexivity].
  destruct (refresh_ttl E) as [rttl |]; [| reflexivity].
  unfold bind. rewrite storeRefreshToken_run. simpl.
  destruct (existsb _ (refreshToken_table w)); reflexivity.
Qed.

Lemma find_app_None {A} (p : A -> bool) (l : list A) (x : A) :
  find p l = None -> find p (l ++ [x]) = if p x then Some x else None.
Proof.
  induction l as [| y l IH]; simpl; intros H; [reflexivity |].
  destruct (p y); [discriminate | auto].
Qed.

(** X1. [register] is rejected with the conflict exception exactly when a
    user already has the email, and it then leaves the state as it was:
    no user, no token record, no draw. *)
Theorem register_conflict_iff_email_taken E dto w :
  (fst (register E dto w) = Throw ConflictError
   <-> exists u, find (has_email (dto_email dto)) (user_table w) = Some u)
  /\ (fst (register E dto w) = Throw ConflictError ->
      snd (register E dto w) = w).
Proof.
  rewrite register_run.
  destruct (find (has_email (dto_email dto)) (user_table w)) as [u |].
  - split; [split; eauto | reflexivity].
  - assert (H : fst (let u := registered_user E dto w in
              match access_ttl E, refresh_ttl E with
              | Some attl, Some rttl =>
                  let pair :=
                    pair_at E (clock w) attl rttl (id u) (email u) (role u) in
                  if existsb (has_token (refreshToken pair))
                       (refreshToken_table w)
                  then (Throw (PrismaClientKnownRequestError "P2002"),
                        with_user E dto w)
                  else (Ok (mkAuthResponse (select_user userSelect u) pair),
                        with_record E (id u) (refreshToken pair)
                          (with_user E dto w))
              | _, _ => (Throw (Error (invalid_expiresIn E)),
                         with_user E dto w)
              end) <> Throw ConflictError).
    { simpl. destruct (access_ttl E); [| discriminate].
      destruct (refresh_ttl E); [| discriminate].
      destruct (existsb _ _); discriminate. }
    split; [split |].
    + intros Hc. contradiction.
    + intros [u Hu]. discriminate.
    + intros Hc. contradiction.
Qed.

(** X2. [register] is not atomic: when the email is free and the method
    is rejected all the same (a lifetime that is no time span, or a token
    that is already stored), the user row has been written and no token
    record has; registering again, at any time, is then rejected with the
    conflict exception. *)
Theorem register_rejected_keeps_user E dto w e w1 :
  find (has_email (dto_email dto)) (user_table w) = None ->
  register E dto w = (Throw e, w1) ->
  w1 = with_user E dto w
  /\ find (has_email (dto_email dto)) (user_table w1)
     = Some (registered_user E dto w)
  /\ refreshToken_table w1 = refreshToken_table w
  /\ forall later,
       register E dto (set_clock later w1)
       = (Throw ConflictError, set_clock later w1).
Proof.
  intros Hfree Hreg. rewrite register_run, Hfree in Hreg. simpl in Hreg.
  assert (Hw : w1 = with_user E dto w).
  { destruct (access_ttl E); [| injection Hreg as _ <-; reflexivity].
    destruct (refresh_ttl E); [| injection Hreg as _ <-; reflexivity].
    destruct (existsb _ _); [| discriminate].
    injection Hreg as _ <-. reflexivity. }
  subst w1.
  assert (Hfind : find (has_email (dto_email dto)) (user_table (with_user E dto w))
                  = Some (registered_user E dto w)).
  { simpl. rewrite (find_app_None _ _ _ Hfree).
    unfold has_email, registered_user, new_user. simpl.
    rewrite String.eqb_refl. reflexivity. }
  repeat split; [exact Hfind |].
  intros later. rewrite register_run. simpl user_table. simpl in Hfind.
  rewrite Hfind. reflexivity.
Qed.

Lemma register_Ok_iff E dto w resp w' :
  register E dto w = (Ok resp, w')
  <-> find (has_email (dto_email dto)) (user_table w) = None
      /\ exists attl rttl,
           let u := registered_user E dto w in
           let pair := pair_at E (clock w) attl rttl (id u) (email u) (role u) in
           access_ttl E = Some attl /\ refresh_ttl E = Some rttl
           /\ existsb (has_token (refreshToken pair)) (refreshToken_table w)
              = false
           /\ resp = mkAuthResponse (select_user userSelect u) pair
           /\ w' = with_record E (id u) (refreshToken pair) (with_user E dto w).
Proof.
  rewrite register_run.
  destruct (find (has_email (dto_email dto)) (user_table w)) as [u |].
  - split; [discriminate | intros [H _]; discriminate].
  - cbv zeta.
    destruct (access_ttl E) as [attl |].
    2: { split; [discriminate |].
         intros (_ & a & r & H & _). discriminate. }
    destruct (refresh_ttl E) as [rttl |].
    2: { split; [discriminate |].
         intros (_ & a & r & _ & H & _). discriminate. }
    destruct (existsb _ _) eqn:Hex.
    + split; [discriminate |].
      intros (_ & a & r & Ha & Hr & H & _).
      injection Ha as <-. injection Hr as <-.
      rewrite Hex in H. discriminate.
    + split.
      * intros H. injection H as <- <-. split; [reflexivity |].
        exists attl, rttl. repeat split. exact Hex.
      * intros (_ & a & r & Ha & Hr & _ & -> & ->).
        injection Ha as <-. injection Hr as <-. reflexivity.
Qed.

(** X3. What a successful [register] has done, and when it succeeds: the
    email was free, both lifetimes are time spans and the refresh token
    signed is not stored yet; the user written has the hash of the
    password under the salt drawn, the pair is signed at the clock for the
    identifier, email and role of that user, the user returned is that row
    under [userSelect], and one token record is appended. *)
Theorem register_succeeds_iff E dto w resp w' :
  register E dto w = (Ok resp, w')
  <-> find (has_email (dto_email dto)) (user_table w) = None
      /\ exists attl rttl,
           let u := registered_user E dto w in
           let pair := pair_at E (clock w) attl rttl (id u) (email u) (role u) in
           access_ttl E = Some attl /\ refresh_ttl E = Some rttl
           /\ existsb (has_token (refreshToken pair)) (refreshToken_table w)
              = false
           /\ resp = mkAuthResponse (select_user userSelect u) pair
           /\ w' = with_record E (id u) (refreshToken pair) (with_user E dto w).
Proof. apply register_Ok_iff. Qed.

(** ** Login *)

(** What [login] computes, case by case. *)
Lemma login_run E dto w :
  login E dto w
  = match find (has_email (login_email dto)) (user_table w) with
    | None => (Throw InvalidCredentialsError, w)
    | Some u =>
        if negb (isActive u) then (Throw AccountInactiveError, w)
        else if negb (bcrypt_compare E (login_password dto) (password u))
        then (Throw InvalidCredentialsError, w)
        else
          match access_ttl E, refresh_ttl E with
          | Some attl, Some rttl =>
              let pair :=
                pair_at E (clock w) attl rttl (id u) (email u) (role u) in
              if existsb (has_token (refreshToken pair)) (refreshToken_table w)
              then (Throw (PrismaClientKnownRequestError "P2002"), w)
              else (Ok (mkAuthResponse
                          (rest_without_password (select_user all_columns u))
                          pair),
                    with_record E (id u) (refreshToken pair) w)
          | _, _ => (Throw (Error (invalid_expiresIn E)), w)
          end
    end.
Proof.
  unfold login, UsersService_findByEmail, user_findUnique_email.
  unfold bind at 1 2, get_world, ret. simpl.
  destruct (find (has_email (login_email dto)) (user_table w)) as [u |];
    [| reflexivity].
  destruct (negb (isActive u)); [reflexivity |].
  destruct (negb (bcrypt_compare E (login_password dto) (password u)));
    [reflexivity |].
  unfold bind at 1. rewrite generateTokens_run.
  destruct (access_ttl E) as [attl |]; [| reflexivity].
  destruct (refresh_ttl E) as [rttl |]; [| reflexivity].
  unfold bind. rewrite storeRefreshToken_run. cbv zeta.
  destruct (existsb _ (refreshToken_table w)); reflexivity.
Qed.

Lemma login_Ok_iff E dto w resp w' :
  login E dto w = (Ok resp, w')
  <-> exists u attl rttl,
        let pair := pair_at E (clock w) attl rttl (id u) (email u) (role u) in
        find (has_email (login_email dto)) (user_table w) = Some u
        /\ isActive u = true
        /\ bcrypt_compare E (login_password dto) (password u) = true
        /\ access_ttl E = Some attl /\ refresh_ttl E = Some rttl
        /\ existsb (has_token (refreshToken pair)) (refreshToken_table w)
           = false
        /\ resp = mkAuthResponse
                    (rest_without_password (select_user all_columns u)) pair
        /\ w' = with_record E (id u) (refreshToken pair) w.
Proof.
  rewrite login_run. cbv zeta.
  destruct (find (has_email (login_email dto)) (user_table w)) as [u |].
  2: { split; [discriminate |]. intros (u & a & r & H & _). discriminate. }
  destruct (isActive u) eqn:Hact; simpl.
  2: { split; [discriminate |].
       intros (u' & a & r & H & H' & _). injection H as <-. congruence. }
  destruct (bcrypt_compare E (login_password dto) (password u)) eqn:Hpw; simpl.
  2: { split; [discriminate |].
       intros (u' & a & r & H & _ & H' & _). injection H as <-. congruence. }
  destruct (access_ttl E) as [attl |].
  2: { split; [discriminate |].
       intros (u' & a & r & _ & _ & _ & H & _). discriminate. }
  destruct (refresh_ttl E) as [rttl |].
  2: { split; [discriminate |].
       intros (u' & a & r & _ & _ & _ & _ & H & _). discriminate. }
  destruct (existsb _ _) eqn:Hex.
  - split; [discriminate |].
    intros (u' & a & r & H & _ & _ & Ha & Hr & H' & _).
    injection H as <-. injection Ha as <-. injection Hr as <-. congruence.
  - split.
    + intros H. injection H as <- <-. exists u, attl, rttl. repeat split; auto.
    + intros (u' & a & r & H & _ & _ & Ha & Hr & _ & -> & ->).
      injection H as <-. injection Ha as <-. injection Hr as <-. reflexivity.
Qed.

(** X4. What a successful [login] has done, and when it succeeds: the
    email is that of a user who is active and whose digest the password
    matches, both lifetimes are time spans and the refresh token signed is
    not stored yet; the pair is signed at the clock for the identifier,
    email and role of the row, the user returned is the row less its
    password, and the state changes by the one token record appended. *)
Theorem login_succeeds_iff E dto w resp w' :
  login E dto w = (Ok resp, w')
  <-> exists u attl rttl,
        let pair := pair_at E (clock w) attl rttl (id u) (email u) (role u) in
        find (has_email (login_email dto)) (user_table w) = Some u
        /\ isActive u = true
        /\ bcrypt_compare E (login_password dto) (password u) = true
        /\ access_ttl E = Some attl /\ refresh_ttl E = Some rttl
        /\ existsb (has_token (refreshToken pair)) (refreshToken_table w)
           = false
        /\ resp = mkAuthResponse
                    (rest_without_password (select_user all_columns u)) pair
        /\ w' = with_record E (id u) (refreshToken pair) w.
Proof. apply login_Ok_iff. Qed.

(** ** Refresh *)

Lemma update_first_find_None {A} (p : A -> bool) (f : A -> A) (l : list A) :
  find p l = None -> update_first p f l = None.
Proof.
  induction l as [| x l IH]; simpl; [reflexivity |].
  destruct (p x); [discriminate |]. intros H. rewrite (IH H). reflexivity.
Qed.

Lemma update_first_find_Some {A} (p : A -> bool) (f : A -> A) (l : list A) x :
  find p l = Some x -> exists l', update_first p f l = Some (f x, l').
Proof.
  induction l as [| y l IH]; simpl; [discriminate |].
  destruct (p y).
  - intros H. injection H as <-. eauto.
  - intros H. destruct (IH H) as [l' ->]. eauto.
Qed.

Lemma update_first_Some_find {A} (p : A -> bool) (f : A -> A) (l : list A)
    y l' :
  update_first p f l = Some (y, l') ->
  exists x, find p l = Some x /\ y = f x.
Proof.
  revert y l'. induction l as [| z l IH]; simpl; intros y l' H;
    [discriminate |].
  destruct (p z).
  - injection H as <- _. eauto.
  - destruct (update_first p f l) as [[y0 l0] |]; [| discriminate].
    injection H as <- _. eapply IH. reflexivity.
Qed.

Lemma refreshToken_update_revoked_run t w :
  refreshToken_update_revoked t w
  = match find (has_token t) (refreshToken_table w) with
    | Some r =>
        (Ok (revoke r),
         set_refreshTokens (revoke_first t (refreshToken_table w)) w)
    | None => (Throw (PrismaClientKnownRequestError "P2025"), w)
    end.
Proof.
  unfold refreshToken_update_revoked, revoke_first, bind, get_world. simpl.
  destruct (find (has_token t) (refreshToken_table w)) as [r |] eqn:Hf.
  - destruct (update_first_find_Some _ revoke _ _ Hf) as [l' ->]. reflexivity.
  - rewrite (update_first_find_None _ revoke _ Hf). reflexivity.
Qed.

Lemma revoke_first_tokens t rows :
  map token (revoke_first t rows) = map token rows.
Proof.
  unfold revoke_first.
  destruct (update_first (has_token t) revoke rows) as [[r rows'] |] eqn:Hu;
    [| reflexivity].
  apply update_first_revoke_advances in Hu.
  induction Hu as [| x y xs ys Hxy _ IH]; simpl; [reflexivity |].
  destruct (advances_fields _ _ Hxy) as (_ & -> & _). rewrite IH. reflexivity.
Qed.

Lemma existsb_has_token_tokens t rows :
  existsb (has_token t) rows
  = existsb (fun s => String.eqb s t) (map token rows).
Proof. induction rows as [| r rows IH]; simpl; [| rewrite IH]; reflexivity. Qed.

Lemma existsb_has_token_revoke_first t' t rows :
  existsb (has_token t') (revoke_first t rows) = existsb (has_token t') rows.
Proof.
  rewrite !existsb_has_token_tokens, revoke_first_tokens. reflexivity.
Qed.

Lemma jwt_verify_run E t secret w :
  jwt_verify E t secret w
  = match jws_decode E secret t with
    | Some claims =>
        if exp claims <=? seconds (clock w) then (Throw TokenExpiredError, w)
        else (Ok claims, w)
    | None => (Throw (JsonWebTokenError "invalid token"), w)
    end.
Proof.
  unfold jwt_verify, bind, Date_now. simpl.
  destruct (jws_decode E secret t) as [c |]; [| reflexivity].
  destruct (exp c <=? seconds (clock w)); reflexivity.
Qed.

Lemma UsersService_findById_run i w :
  UsersService_findById i w
  = match find (has_id i) (user_table w) with
    | Some u => (Ok (select_user userSelect u), w)
    | None => (Throw (NotFoundException "User not found"), w)
    end.
Proof.
  unfold UsersService_findById, user_findUnique_id, bind, get_world, ret.
  simpl. destruct (find (has_id i) (user_table w)); reflexivity.
Qed.

(** What the [try] block of [refreshTokens] computes, case by case. *)
Lemma refreshTokens_try_run E t w :
  refreshTokens_try E t w
  = match jws_decode E (JWT_REFRESH_SECRET (configService E)) t with
    | None => (Throw (JsonWebTokenError "invalid token"), w)
    | Some payload =>
      if exp payload <=? seconds (clock w) then (Throw TokenExpiredError, w)
      else
      match find (has_token t) (refreshToken_table w) with
      | None => (Throw InvalidRefreshTokenError, w)
      | Some stored =>
        if isRevoked stored then (Throw InvalidRefreshTokenError, w)
        else if expiresAt stored <? clock w
        then (Throw RefreshTokenExpiredError, w)
        else
        match find (has_id (sub payload)) (user_table w) with
        | None => (Throw (NotFoundException "User not found"), w)
        | Some u =>
          if negb (isActive u) then (Throw AccountInactiveError, w)
          else
          let w1 :=
            set_refreshTokens (revoke_first t (refreshToken_table w)) w in
          match access_ttl E, refresh_ttl E with
          | Some attl, Some rttl =>
            let pair :=
              pair_at E (clock w) attl rttl (id u) (email u) (role u) in
            if existsb (has_token (refreshToken pair)) (refreshToken_table w)
            then (Throw (PrismaClientKnownRequestError "P2002"), w1)
            else (Ok pair, with_record E (id u) (refreshToken pair) w1)
          | _, _ => (Throw (Error (invalid_expiresIn E)), w1)
          end
        end
      end
    end.
Proof.
  unfold refreshTokens_try.
  unfold bind at 1. rewrite jwt_verify_run.
  destruct (jws_decode E (JWT_REFRESH_SECRET (configService E)) t)
    as [payload |]; [| reflexivity].
  destruct (exp payload <=? seconds (clock w)); [reflexivity |].
  unfold bind at 1, refreshToken_findUnique at 1, bind at 1, get_world, ret.
  simpl.
  destruct (find (has_token t) (refreshToken_table w)) as [stored |] eqn:Hf;
    [| reflexivity].
  destruct (isRevoked stored); [reflexivity |].
  unfold bind at 1, Date_now at 1. simpl.
  destruct (expiresAt stored <? clock w); [reflexivity |].
  unfold bind at 1. rewrite UsersService_findById_run.
  destruct (find (has_id (sub payload)) (user_table w)) as [u |];
    [| reflexivity].
  change (o_isActive (select_user userSelect u)) with (isActive u).
  change (o_id (select_user userSelect u)) with (id u).
  change (o_email (select_user userSelect u)) with (email u).
  change (o_role (select_user userSelect u)) with (role u).
  destruct (negb (isActive u)); [reflexivity |].
  unfold bind at 1. rewrite refreshToken_update_revoked_run, Hf.
  unfold bind at 1. rewrite generateTokens_run. simpl clock.
  destruct (access_ttl E) as [attl |]; [| reflexivity].
  destruct (refresh_ttl E) as [rttl |]; [| reflexivity].
  unfold bind. rewrite storeRefreshToken_run. cbv zeta.
  simpl refreshToken_table. rewrite existsb_has_token_revoke_first.
  destruct (existsb _ (refreshToken_table w)); reflexivity.
Qed.

Lemma find_revoke_first t rows stored :
  find (has_token t) rows = Some stored ->
  find (has_token t) (revoke_first t rows) = Some (revoke stored).
Proof.
  unfold revoke_first. induction rows as [| x rows IH]; simpl; [discriminate |].
  destruct (has_token t x) eqn:Hx.
  - intros H. injection H as <-. simpl. rewrite has_token_revoke, Hx.
    reflexivity.
  - intros H. specialize (IH H).
    destruct (update_first (has_token t) revoke rows) as [[y l] |]; simpl.
    + rewrite Hx. exact IH.
    + rewrite Hx. exact IH.
Qed.

Lemma revoke_first_other t rows n r :
  nth_error rows n = Some r -> token r <> t ->
  nth_error (revoke_first t rows) n = Some r.
Proof.
  unfold revoke_first. revert n.
  induction rows as [| x rows IH]; intros n Hn Hr; simpl; [exact Hn |].
  destruct (has_token t x) eqn:Hx.
  - destruct n as [| n]; simpl in *; [| exact Hn].
    injection Hn as ->. unfold has_token in Hx.
    apply String.eqb_eq in Hx. contradiction.
  - destruct n as [| n]; simpl in *.
    + destruct (update_first (has_token t) revoke rows) as [[y l] |];
        exact Hn.
    + specialize (IH n Hn Hr).
      destruct (update_first (has_token t) revoke rows) as [[y l] |];
        exact IH.
Qed.

Lemma refreshTokens_Ok_iff E t w pair w' :
  refreshTokens E t w = (Ok pair, w')
  <-> exists payload stored u attl rttl,
        jws_decode E (JWT_REFRESH_SECRET (configService E)) t = Some payload
        /\ seconds (clock w) < exp payload
        /\ find (has_token t) (refreshToken_table w) = Some stored
        /\ isRevoked stored = false
        /\ clock w <= expiresAt stored
        /\ find (has_id (sub payload)) (user_table w) = Some u
        /\ isActive u = true
        /\ access_ttl E = Some attl /\ refresh_ttl E = Some rttl
        /\ pair = pair_at E (clock w) attl rttl (id u) (email u) (role u)
        /\ existsb (has_token (refreshToken pair)) (refreshToken_table w)
           = false
        /\ w' = with_record E (id u) (refreshToken pair)
                 (set_refreshTokens
                    (revoke_first t (refreshToken_table w)) w).
Proof.
  unfold refreshTokens, try_catch. rewrite refreshTokens_try_run. cbv zeta.
  split.
  - destruct (jws_decode E (JWT_REFRESH_SECRET (configService E)) t)
      as [payload |] eqn:Hd; [| discriminate].
    destruct (exp payload <=? seconds (clock w)) eqn:Hexp; [discriminate |].
    destruct (find (has_token t) (refreshToken_table w)) as [stored |] eqn:Hf;
      [| discriminate].
    destruct (isRevoked stored) eqn:Hrev; [discriminate |].
    destruct (expiresAt stored <? clock w) eqn:Hpast; [discriminate |].
    destruct (find (has_id (sub payload)) (user_table w)) as [u |] eqn:Hu;
      [| discriminate].
    destruct (isActive u) eqn:Hact; [| discriminate]. simpl.
    destruct (access_ttl E) as [attl |] eqn:Ha; [| discriminate].
    destruct (refresh_ttl E) as [rttl |] eqn:Hr; [| discriminate].
    destruct (existsb _ _) eqn:Hex; [discriminate |].
    intros H. injection H as <- <-.
    exists payload, stored, u, attl, rttl.
    apply Z.leb_gt in Hexp. apply Z.ltb_ge in Hpast.
    repeat split; auto.
  - intros (payload & stored & u & attl & rttl & -> & Hexp & -> & -> & Hpast
            & -> & -> & -> & -> & -> & Hex & ->).
    apply Z.leb_gt in Hexp. apply Z.ltb_ge in Hpast.
    rewrite Hexp, Hpast. cbn [negb]. rewrite Hex. reflexivity.
Qed.


Lemma refreshTokens_inactive_run E t w payload :
  jws_decode E (JWT_REFRESH_SECRET (configService E)) t = Some payload ->
  match find (has_id (sub payload)) (user_table w) with
  | Some u => isActive u = false
  | None => True
  end ->
  refreshTokens E t w = (Throw InvalidRefreshTokenError, w).
Proof.
  intros Hd Hu. unfold refreshTokens, try_catch.
  rewrite refreshTokens_try_run, Hd. cbv zeta.
  destruct (exp payload <=? seconds (clock w)); [reflexivity |].
  destruct (find (has_token t) (refreshToken_table w)) as [stored |];
    [| reflexivity].
  destruct (isRevoked stored); [reflexivity |].
  destruct (expiresAt stored <? clock w); [reflexivity |].
  destruct (find (has_id (sub payload)) (user_table w)) as [u |];
    [| reflexivity].
  rewrite Hu. reflexivity.
Qed.

(** X6. A refresh token of a user who has been deactivated, or who is no
    longer in the table, is rejected like an invalid one, and the call
    writes nothing: the record of the token is not revoked. *)
Theorem refreshTokens_inactive_user_untouched E t w payload :
  jws_decode E (JWT_REFRESH_SECRET (configService E)) t = Some payload ->
  match find (has_id (sub payload)) (user_table w) with
  | Some u => isActive u = false
  | None => True
  end ->
  refreshTokens E t w = (Throw InvalidRefreshTokenError, w).
Proof. apply refreshTokens_inactive_run. Qed.

(** X7. Rotation is not atomic: when a refresh token passes every check
    but the token signed in its place is already stored (as it is when the
    refresh comes within the second the old token was signed, and the new
    token is the old one), the call is rejected like an invalid token after
    the record of the old token has been revoked.  The caller is left with
    no refresh token that works. *)
Theorem refreshTokens_collision_revokes E t w payload stored u attl rttl :
  jws_decode E (JWT_REFRESH_SECRET (configService E)) t = Some payload ->
  seconds (clock w) < exp payload ->
  find (has_token t) (refreshToken_table w) = Some stored ->
  isRevoked stored = false ->
  clock w <= expiresAt stored ->
  find (has_id (sub payload)) (user_table w) = Some u ->
  isActive u = true ->
  access_ttl E = Some attl ->
  refresh_ttl E = Some rttl ->
  existsb
    (has_token
       (refreshToken (pair_at E (clock w) attl rttl (id u) (email u) (role u))))
    (refreshToken_table w) = true ->
  refreshTokens E t w
  = (Throw InvalidRefreshTokenError,
     set_refreshTokens (revoke_first t (refreshToken_table w)) w)
  /\ find (has_token t) (revoke_first t (refreshToken_table w))
     = Some (revoke stored)
  /\ forall later,
       fst (refreshTokens E t
              (set_clock later
                 (set_refreshTokens (revoke_first t (refreshToken_table w)) w)))
       = Throw InvalidRefreshTokenError.
Proof.
  intros Hd Hexp Hf Hrev Hpast Hu Hact Ha Hr Hex.
  assert (Hfind := find_revoke_first t _ _ Hf).
  split; [| split; [exact Hfind |]].
  - unfold refreshTokens, try_catch. rewrite refreshTokens_try_run. cbv zeta.
    apply Z.leb_gt in Hexp. apply Z.ltb_ge in Hpast.
    rewrite Hd, Hexp, Hf, Hrev, Hpast, Hu, Hact, Ha, Hr. cbn [negb].
    rewrite Hex. reflexivity.
  - intros later. apply refreshTokens_spent_rejected. simpl.
    exists (revoke stored). split; [exact Hfind | reflexivity].
Qed.

(** ** Logout, then refresh *)

Lemma find_map_revoke_matching t rows :
  find (has_token t) (map (revoke_matching t) rows)
  = option_map revoke (find (has_token t) rows).
Proof.
  induction rows as [| r rows IH]; simpl; [reflexivity |].
  rewrite has_token_revoke_matching.
  destruct (has_token t r) eqn:Hr; [| exact IH].
  unfold revoke_matching. rewrite Hr. reflexivity.
Qed.

(** X8. A refresh token that is stored when [logout] is called with it is
    dead from then on: after any requests served in between and at any
    time, [refreshTokens] rejects it. *)
Theorem refresh_after_logout_rejected E t w stored :
  find (has_token t) (refreshToken_table w) = Some stored ->
  forall (trace : list (Z * Request)) (later : Z),
    fst (refreshTokens E t
           (set_clock later (serve_all E trace (snd (logout t w)))))
    = Throw InvalidRefreshTokenError.
Proof.
  intros Hf trace later.
  apply refreshTokens_spent_rejected. cbn [refreshToken_table set_clock].
  eapply spent_extends; [apply serve_all_table_extends |].
  rewrite logout_run. cbn [snd refreshToken_table set_refreshTokens].
  exists (revoke stored). rewrite find_map_revoke_matching, Hf.
  split; reflexivity.
Qed.

(** ** Users: lookup, role and deactivation *)

(** What [validateUser] computes, case by case. *)
Lemma validateUser_outcomes i w :
  validateUser i w
  = match find (has_id i) (user_table w) with
    | None => (Throw (NotFoundException "User not found"), w)
    | Some u =>
        if isActive u then (Ok (select_user userSelect u), w)
        else (Throw AccountInactiveError, w)
    end.
Proof.
  unfold validateUser, bind. rewrite UsersService_findById_run.
  destruct (find (has_id i) (user_table w)) as [u |]; [| reflexivity].
  change (o_isActive (select_user userSelect u)) with (isActive u).
  destruct (isActive u); reflexivity.
Qed.

Lemma user_update_run i data w :
  user_update i data w
  = match find (has_id i) (user_table w) with
    | Some u =>
        (Ok (written (clock w) data u),
         set_users
           (rewrite_user i (written (clock w) data) (user_table w)) w)
    | None => (Throw (PrismaClientKnownRequestError "P2025"), w)
    end.
Proof.
  unfold user_update, rewrite_user, bind, get_world, Date_now. simpl.
  destruct (find (has_id i) (user_table w)) as [u |] eqn:Hf.
  - destruct (update_first_find_Some _ (written (clock w) data) _ _ Hf)
      as [l' ->].
    reflexivity.
  - rewrite (update_first_find_None _ (written (clock w) data) _ Hf).
    reflexivity.
Qed.

Lemma find_has_id i us u : find (has_id i) us = Some u -> id u = i.
Proof.
  intros H. apply find_some in H as [_ H]. unfold has_id in H.
  apply String.eqb_eq in H. exact H.
Qed.

Lemma find_rewrite_user i data us u :
  (forall x, id (data x) = id x) ->
  find (has_id i) us = Some u ->
  find (has_id i) (rewrite_user i data us) = Some (data u).
Proof.
  intros Hid. unfold rewrite_user.
  induction us as [| x us IH]; simpl; [discriminate |].
  destruct (has_id i x) eqn:Hx.
  - intros H. injection H as <-. simpl. unfold has_id in *.
    rewrite Hid, Hx. reflexivity.
  - intros H. specialize (IH H).
    destruct (update_first (has_id i) data us) as [[y l] |]; simpl;
      rewrite Hx; exact IH.
Qed.

Lemma rewrite_user_rows i data us :
  Forall2 (fun u u' => u' = u \/ (id u = i /\ u' = data u))
    us (rewrite_user i data us).
Proof.
  unfold rewrite_user.
  assert (Hrefl : forall l : list User,
             Forall2 (fun u u' => u' = u \/ (id u = i /\ u' = data u)) l l).
  { induction l; constructor; auto. }
  induction us as [| x us IH]; simpl; [constructor |].
  destruct (has_id i x) eqn:Hx.
  - constructor; [| apply Hrefl].
    right. split; [| reflexivity].
    unfold has_id in Hx. apply String.eqb_eq in Hx. exact Hx.
  - destruct (update_first (has_id i) data us) as [[y l] |];
      constructor; auto.
Qed.

Lemma find_email_rewrite_user i data us u :
  (forall x, email (data x) = email x) ->
  NoDup (map email us) ->
  find (has_id i) us = Some u ->
  find (has_email (email u)) (rewrite_user i data us) = Some (data u).
Proof.
  intros Hem. unfold rewrite_user.
  induction us as [| x us IH]; simpl; [discriminate |].
  intros Hnd. inversion Hnd as [| e es Hnotin Hnd']; subst.
  destruct (has_id i x) eqn:Hx.
  - intros H. injection H as <-. simpl. unfold has_email.
    rewrite Hem, String.eqb_refl. reflexivity.
  - intros H. specialize (IH Hnd' H).
    assert (Hin : In (email u) (map email us)).
    { apply in_map. apply find_some in H. tauto. }
    assert (Hne : has_email (email u) x = false).
    { unfold has_email. destruct (String.eqb_spec (email x) (email u)) as [Heq |];
        [| reflexivity].
      rewrite Heq in Hnotin. contradiction. }
    destruct (update_first (has_id i) data us) as [[y l] |]; simpl;
      rewrite Hne; exact IH.
Qed.

(** X9. Deactivation locks the account out of every entry point, and
    revokes nothing: once [deactivate] has succeeded for an identifier,
    [validateUser] rejects it as inactive at any later time, every refresh
    token whose claims name it is rejected without being revoked, and,
    emails being unique, [login] with the user's email is rejected as
    inactive whatever the password; the refresh-token table is as it
    was. *)
Theorem deactivate_locks_out E i w u w' :
  UsersService_deactivate i w = (Ok u, w') ->
  id u = i /\ isActive u = false
  /\ refreshToken_table w' = refreshToken_table w
  /\ (forall later,
         validateUser i (set_clock later w')
         = (Throw AccountInactiveError, set_clock later w'))
  /\ (forall t payload later,
         jws_decode E (JWT_REFRESH_SECRET (configService E)) t = Some payload ->
         sub payload = i ->
         refreshTokens E t (set_clock later w')
         = (Throw InvalidRefreshTokenError, set_clock later w'))
  /\ (unique_emails w ->
      forall dto later,
        login_email dto = email u ->
        login E dto (set_clock later w')
        = (Throw AccountInactiveError, set_clock later w')).
Proof.
  unfold UsersService_deactivate. rewrite user_update_run.
  destruct (find (has_id i) (user_table w)) as [u0 |] eqn:Hf; [| discriminate].
  intros H. injection H as <- <-.
  assert (Hfind : find (has_id i)
                    (rewrite_user i (written (clock w) (set_isActive false))
                       (user_table w))
                  = Some (written (clock w) (set_isActive false) u0)).
  { apply find_rewrite_user; [reflexivity | exact Hf]. }
  split; [exact (find_has_id _ _ _ Hf) |].
  split; [reflexivity |]. split; [reflexivity |].
  split; [| split].
  - intros later. rewrite validateUser_outcomes.
    cbn [user_table set_clock set_users].
    rewrite Hfind. reflexivity.
  - intros t payload later Hd Hsub.
    apply (refreshTokens_inactive_run E t _ payload Hd).
    cbn [user_table set_clock set_users]. rewrite Hsub, Hfind. reflexivity.
  - intros Huniq dto later Hemail.
    apply login_inactive
      with (u := written (clock w) (set_isActive false) u0);
      [| reflexivity].
    cbn [user_table set_clock set_users]. rewrite Hemail.
    apply (find_email_rewrite_user i (written (clock w) (set_isActive false))
             (user_table w) u0);
      [reflexivity | exact Huniq | exact Hf].
Qed.

(** X10. [assignRole] changes the role of the one user, stamps the row
    with the time of the write, and changes nothing else: when it
    succeeds, the object returned has the identifier, the new role and the
    clock as its [updatedAt]; every row of the table is as it was, or is a
    row of that identifier that now has the new role and the clock as its
    [updatedAt] and all its other columns as before; the refresh-token
    table, the clock and the supply are untouched; and [findById] then
    returns the object that [assignRole] returned. *)
Theorem assignRole_sets_role_only i r w o w' :
  UsersService_assignRole i r w = (Ok o, w') ->
  o_id o = i /\ o_role o = r /\ o_updatedAt o = clock w
  /\ Forall2
       (fun u u' =>
          u' = u
          \/ (id u = i
              /\ id u' = id u /\ email u' = email u
              /\ password u' = password u
              /\ firstName u' = firstName u /\ lastName u' = lastName u
              /\ isActive u' = isActive u /\ createdAt u' = createdAt u
              /\ role u' = r /\ updatedAt u' = clock w))
       (user_table w) (user_table w')
  /\ refreshToken_table w' = refreshToken_table w
  /\ clock w' = clock w /\ drawn w' = drawn w
  /\ UsersService_findById i w' = (Ok o, w').
Proof.
  unfold UsersService_assignRole, bind. rewrite user_update_run.
  destruct (find (has_id i) (user_table w)) as [u0 |] eqn:Hf; [| discriminate].
  intros H. injection H as <- <-.
  split; [exact (find_has_id _ _ _ Hf) |].
  split; [reflexivity |]. split; [reflexivity |].
  split.
  { cbn [user_table set_users].
    eapply Forall2_impl;
      [| apply (rewrite_user_rows i (written (clock w) (set_role r)))].
    intros u u' [-> | [Hi ->]]; [left; reflexivity |].
    right. repeat split; auto. }
  repeat (split; [reflexivity |]).
  rewrite UsersService_findById_run. cbn [user_table set_users].
  rewrite (find_rewrite_user i (written (clock w) (set_role r)) _ u0);
    [reflexivity | reflexivity | exact Hf].
Qed.

(** X11. The methods disagree on an identifier no user has: [findById]
    and [validateUser] throw the not-found exception of the service,
    whereas [update], [assignRole] and [deactivate] let the P2025 error of
    the database through; none of them changes the state. *)
Theorem unknown_id_errors E i w :
  find (has_id i) (user_table w) = None ->
  UsersService_findById i w = (Throw (NotFoundException "User not found"), w)
  /\ validateUser i w = (Throw (NotFoundException "User not found"), w)
  /\ (forall dto,
         UsersService_update E i dto w
         = (Throw (PrismaClientKnownRequestError "P2025"), w))
  /\ (forall r,
         UsersService_assignRole i r w
         = (Throw (PrismaClientKnownRequestError "P2025"), w))
  /\ UsersService_deactivate i w
     = (Throw (PrismaClientKnownRequestError "P2025"), w).
Proof.
  intros Hf.
  rewrite UsersService_findById_run, validateUser_outcomes, Hf.
  unfold UsersService_update, UsersService_assignRole, UsersService_deactivate,
    bind.
  repeat split; intros; rewrite user_update_run, Hf; reflexivity.
Qed.

(** ** What the requests leave alone, and the unique columns *)

Lemma refreshTokens_run E t w :
  refreshTokens E t w
  = match refreshTokens_try E t w with
    | (Ok issued, w') => (Ok issued, w')
    | (Throw _, w') => (Throw InvalidRefreshTokenError, w')
    end.
Proof. reflexivity. Qed.

(** X12. Only [register] writes the table of users, and it only appends:
    [login], [refreshTokens] and [logout] leave every user row as it was,
    whether they answer or reject, and after [register] the table is the
    old one, followed by the new user when the email was free. *)
Theorem requests_keep_users E q w :
  match q with
  | Register dto =>
      user_table (handle E q w)
      = match find (has_email (dto_email dto)) (user_table w) with
        | Some _ => user_table w
        | None => (user_table w ++ [registered_user E dto w])%list
        end
  | _ => user_table (handle E q w) = user_table w
  end.
Proof.
  destruct q as [dto | dto | t | t]; cbn [handle].
  - rewrite register_run. cbv zeta.
    destruct (find (has_email (dto_email dto)) (user_table w)); [reflexivity |].
    destruct (access_ttl E); [| reflexivity].
    destruct (refresh_ttl E); [| reflexivity].
    destruct (existsb _ _); reflexivity.
  - rewrite login_run. cbv zeta.
    destruct (find (has_email (login_email dto)) (user_table w)) as [u |];
      [| reflexivity].
    destruct (negb (isActive u)); [reflexivity |].
    destruct (negb (bcrypt_compare E (login_password dto) (password u)));
      [reflexivity |].
    destruct (access_ttl E); [| reflexivity].
    destruct (refresh_ttl E); [| reflexivity].
    destruct (existsb _ _); reflexivity.
  - rewrite refreshTokens_run, refreshTokens_try_run. cbv zeta.
    destruct (jws_decode E (JWT_REFRESH_SECRET (configService E)) t)
      as [payload |]; [| reflexivity].
    destruct (exp payload <=? seconds (clock w)); [reflexivity |].
    destruct (find (has_token t) (refreshToken_table w)) as [stored |];
      [| reflexivity].
    destruct (isRevoked stored); [reflexivity |].
    destruct (expiresAt stored <? clock w); [reflexivity |].
    destruct (find (has_id (sub payload)) (user_table w)) as [u |];
      [| reflexivity].
    destruct (negb (isActive u)); [reflexivity |].
    destruct (access_ttl E); [| reflexivity].
    destruct (refresh_ttl E); [| reflexivity].
    destruct (existsb _ _); reflexivity.
  - reflexivity.
Qed.

Lemma existsb_has_token_false_notin t rows :
  existsb (has_token t) rows = false -> ~ In t (map token rows).
Proof.
  induction rows as [| r rows IH]; simpl; [tauto |].
  unfold has_token at 1.
  destruct (String.eqb_spec (token r) t) as [Heq | Hne]; simpl;
    [discriminate |].
  intros H [Hin | Hin]; [contradiction | exact (IH H Hin)].
Qed.

Lemma find_has_email_None_notin e us :
  find (has_email e) us = None -> ~ In e (map email us).
Proof.
  induction us as [| u us IH]; simpl; [tauto |].
  unfold has_email at 1.
  destruct (String.eqb_spec (email u) e) as [Heq | Hne]; [discriminate |].
  intros H [Hin | Hin]; [contradiction | exact (IH H Hin)].
Qed.

Lemma NoDup_snoc {A} (l : list A) (x : A) :
  NoDup l -> ~ In x l -> NoDup (l ++ [x]).
Proof.
  intros Hnd Hnotin. apply NoDup_app.
  - exact Hnd.
  - constructor; [simpl; tauto | constructor].
  - intros a Ha [<- | []]. contradiction.
Qed.

Lemma map_revoke_matching_tokens t rows :
  map token (map (revoke_matching t) rows) = map token rows.
Proof.
  rewrite map_map. apply map_ext. intros r. unfold revoke_matching.
  destruct (has_token t r); reflexivity.
Qed.

Lemma with_record_unique_tokens E uid t w :
  existsb (has_token t) (refreshToken_table w) = false ->
  unique_tokens w -> unique_tokens (with_record E uid t w).
Proof.
  intros Hex Hu. unfold unique_tokens, with_record. simpl.
  rewrite map_app. simpl. apply NoDup_snoc; [exact Hu |].
  apply existsb_has_token_false_notin. exact Hex.
Qed.

Lemma with_user_unique_emails E dto w :
  find (has_email (dto_email dto)) (user_table w) = None ->
  unique_emails w -> unique_emails (with_user E dto w).
Proof.
  intros Hf Hu. unfold unique_emails, with_user. simpl.
  rewrite map_app. simpl. apply NoDup_snoc; [exact Hu |].
  apply find_has_email_None_notin. exact Hf.
Qed.

Lemma revoke_first_unique_tokens t w :
  unique_tokens w ->
  unique_tokens (set_refreshTokens (revoke_first t (refreshToken_table w)) w).
Proof.
  unfold unique_tokens. simpl. rewrite revoke_first_tokens. auto.
Qed.

Lemma handle_uniqueness_kept E q w : uniqueness_kept w (handle E q w).
Proof.
  unfold uniqueness_kept.
  destruct q as [dto | dto | t | t]; cbn [handle].
  - rewrite register_run. cbv zeta.
    destruct (find (has_email (dto_email dto)) (user_table w)) eqn:Hf;
      [simpl; auto |].
    pose proof (with_user_unique_emails E dto w Hf) as Hue.
    destruct (access_ttl E); [| simpl; auto].
    destruct (refresh_ttl E); [| simpl; auto].
    destruct (existsb _ _) eqn:Hex; [simpl; auto |].
    cbn [snd]. split.
    + intros Hu. apply with_record_unique_tokens; [exact Hex | exact Hu].
    + exact Hue.
  - rewrite login_run. cbv zeta.
    destruct (find (has_email (login_email dto)) (user_table w)) as [u |];
      [| simpl; auto].
    destruct (negb (isActive u)); [simpl; auto |].
    destruct (negb (bcrypt_compare E (login_password dto) (password u)));
      [simpl; auto |].
    destruct (access_ttl E); [| simpl; auto].
    destruct (refresh_ttl E); [| simpl; auto].
    destruct (existsb _ _) eqn:Hex; [simpl; auto |].
    cbn [snd]. split; [| auto].
    intros Hu. apply with_record_unique_tokens; [exact Hex | exact Hu].
  - rewrite refreshTokens_run, refreshTokens_try_run. cbv zeta.
    destruct (jws_decode E (JWT_REFRESH_SECRET (configService E)) t)
      as [payload |]; [| simpl; auto].
    destruct (exp payload <=? seconds (clock w)); [simpl; auto |].
    destruct (find (has_token t) (refreshToken_table w)) as [stored |];
      [| simpl; auto].
    destruct (isRevoked stored); [simpl; auto |].
    destruct (expiresAt stored <? clock w); [simpl; auto |].
    destruct (find (has_id (sub payload)) (user_table w)) as [u |];
      [| simpl; auto].
    destruct (negb (isActive u)); [simpl; auto |].
    pose proof (revoke_first_unique_tokens t w) as Hrev.
    destruct (access_ttl E); [| cbn [snd]; split; auto].
    destruct (refresh_ttl E); [| cbn [snd]; split; auto].
    destruct (existsb _ _) eqn:Hex; [cbn [snd]; split; auto |].
    cbn [snd]. split; [| auto].
    intros Hu. apply with_record_unique_tokens; [| auto].
    cbn [refreshToken_table set_refreshTokens].
    rewrite existsb_has_token_revoke_first. exact Hex.
  - rewrite logout_run. cbn [snd]. split; [| auto].
    unfold unique_tokens. simpl. rewrite map_revoke_matching_tokens. auto.
Qed.

(** X13. The unique columns stay unique: if no two refresh-token records
    have the same token, or no two users the same email, before a trace of
    requests is served, the same holds after it.  [register] and the
    methods that store a token are rejected rather than write a second row
    with a value that is taken. *)
Theorem requests_keep_uniqueness E trace w :
  (unique_tokens w -> unique_tokens (serve_all E trace w))
  /\ (unique_emails w -> unique_emails (serve_all E trace w)).
Proof.
  unfold serve_all. revert w.
  induction trace as [| tq trace IH]; intros w; simpl; [auto |].
  destruct (IH (serve E tq w)) as [IHt IHe].
  destruct (handle_uniqueness_kept E (snd tq) (set_clock (fst tq) w))
    as [Ht He].
  split; intros H.
  - apply IHt. apply Ht. exact H.
  - apply IHe. apply He. exact H.
Qed.

Lemma revoke_first_is_revoke_matching t rows :
  NoDup (map token rows) ->
  revoke_first t rows = map (revoke_matching t) rows.
Proof.
  unfold revoke_first.
  induction rows as [| r rows IH]; simpl; [reflexivity |].
  intros Hnd. inversion Hnd as [| x xs Hnotin Hnd']; subst.
  unfold revoke_matching at 1.
  destruct (has_token t r) eqn:Hr.
  - f_equal. symmetry. rewrite <- (map_id rows) at 2. apply map_ext_in.
    intros r' Hin. unfold revoke_matching.
    destruct (has_token t r') eqn:Hr'; [| reflexivity].
    unfold has_token in Hr, Hr'.
    apply String.eqb_eq in Hr. apply String.eqb_eq in Hr'.
    exfalso. apply Hnotin. rewrite Hr, <- Hr'. apply in_map. exact Hin.
  - specialize (IH Hnd').
    destruct (update_first (has_token t) revoke rows) as [[y l] |];
      f_equal; exact IH.
Qed.

(** X14. Rotation and logout revoke the same thing: when no two records
    have the same token, the table a successful [refreshTokens] leaves is
    the table [logout] of the same string would leave, followed by the
    record of the new token. *)
Theorem rotation_revokes_what_logout_revokes E t w pair w' :
  unique_tokens w ->
  refreshTokens E t w = (Ok pair, w') ->
  exists row,
    refreshToken_table w'
    = (refreshToken_table (snd (logout t w)) ++ [row])%list
    /\ token row = refreshToken pair /\ isRevoked row = false.
Proof.
  intros Hu H. apply refreshTokens_Ok_iff in H
    as (payload & stored & u & attl & rttl & _ & _ & _ & _ & _ & _ & _ & _
        & _ & -> & _ & ->).
  rewrite logout_run. cbn [snd refreshToken_table set_refreshTokens with_record].
  rewrite (revoke_first_is_revoke_matching t _ Hu).
  eexists. split; [reflexivity |]. split; reflexivity.
Qed.

(** ** From issuance to rotation *)

(** X15. A refresh token issued by [login] can be rotated: provided the
    codec reads back under the refresh secret the claims it signed, the
    identifier of the user finds the same row as the email, the time of
    the refresh is within the lifetime signed into the token and within
    seven days of the login, and the token to be signed is not stored yet,
    [refreshTokens] answers the token of the login with the pair signed
    for the same user at the time of the refresh. *)
Theorem login_then_refresh E dto w resp w1 u attl rttl later :
  login E dto w = (Ok resp, w1) ->
  jws_decode E (JWT_REFRESH_SECRET (configService E))
    (refreshToken (resp_tokens resp))
  = Some (claims_at (clock w) rttl (id u) (email u) (role u)) ->
  find (has_email (login_email dto)) (user_table w) = Some u ->
  find (has_id (id u)) (user_table w) = Some u ->
  access_ttl E = Some attl ->
  refresh_ttl E = Some rttl ->
  seconds later < seconds (clock w) + rttl ->
  later <= clock w + 7 * 86400000 ->
  existsb
    (has_token
       (refreshToken (pair_at E later attl rttl (id u) (email u) (role u))))
    (refreshToken_table w1) = false ->
  exists w2,
    refreshTokens E (refreshToken (resp_tokens resp)) (set_clock later w1)
    = (Ok (pair_at E later attl rttl (id u) (email u) (role u)), w2).
Proof.
  intros Hlogin Hcodec Hu Hid Ha Hr Hexp Hpast Hfresh.
  apply login_Ok_iff in Hlogin
    as (u' & a & r & Hu' & Hact & _ & Ha' & Hr' & Hex & -> & ->).
  rewrite Hu in Hu'. injection Hu' as <-.
  rewrite Ha in Ha'. injection Ha' as <-.
  rewrite Hr in Hr'. injection Hr' as <-.
  eexists. apply refreshTokens_Ok_iff.
  exists (claims_at (clock w) rttl (id u) (email u) (role u)),
    (new_refreshToken E (drawn w) (clock w)
       (refreshToken (pair_at E (clock w) attl rttl (id u) (email u) (role u)))
       (id u) (add_days (clock w) 7) false),
    u, attl, rttl.
  split; [exact Hcodec |]. split; [exact Hexp |].
  split.
  { cbn [refreshToken_table set_clock with_record].
    apply find_None_existsb in Hex. rewrite (find_app_None _ _ _ Hex).
    unfold has_token, new_refreshToken. cbn [token].
    rewrite String.eqb_refl. reflexivity. }
  split; [reflexivity |]. split; [exact Hpast |].
  split; [exact Hid |]. split; [exact Hact |].
  split; [exact Ha |]. split; [exact Hr |].
  split; [reflexivity |]. split; [exact Hfresh | reflexivity].
Qed.

(** X16. A change of role reaches the tokens at the next rotation: when
    [assignRole] has given a user a role and a refresh token whose claims
    name that user is then rotated, the pair returned is signed for the
    new role, whatever role the claims of the old token carry. *)
Theorem refresh_after_assignRole_carries_role E i r w o w1 t payload later
    pair w2 :
  UsersService_assignRole i r w = (Ok o, w1) ->
  jws_decode E (JWT_REFRESH_SECRET (configService E)) t = Some payload ->
  sub payload = i ->
  refreshTokens E t (set_clock later w1) = (Ok pair, w2) ->
  exists attl rttl,
    access_ttl E = Some attl /\ refresh_ttl E = Some rttl
    /\ pair = pair_at E later attl rttl i (o_email o) r.
Proof.
  intros Hassign Hd Hsub Hrefresh.
  unfold UsersService_assignRole, bind in Hassign.
  rewrite user_update_run in Hassign.
  destruct (find (has_id i) (user_table w)) as [u0 |] eqn:Hf; [| discriminate].
  injection Hassign as <- <-.
  apply refreshTokens_Ok_iff in Hrefresh
    as (payload' & stored & u & attl & rttl & Hd' & _ & _ & _ & _ & Hu & _
        & Ha & Hr & -> & _ & _).
  rewrite Hd in Hd'. injection Hd' as <-.
  cbn [user_table set_clock set_users] in Hu.
  rewrite Hsub, (find_rewrite_user i (written (clock w) (set_role r)) _ u0)
    in Hu;
    [| reflexivity | exact Hf].
  injection Hu as <-.
  exists attl, rttl. split; [exact Ha |]. split; [exact Hr |].
  pose proof (find_has_id _ _ _ Hf) as Hi.
  unfold pair_at. simpl. rewrite Hi. reflexivity.
Qed.

(** ** The origins of CORS *)

Lemma trimStart_split s :
  exists pre, s = (pre ++ trimStart s)%list /\ forallb is_white pre = true.
Proof.
  induction s as [| c s (pre & Hs & Hpre)]; simpl.
  - exists []. split; reflexivity.
  - destruct (is_white c) eqn:Hc.
    + exists (c :: pre). simpl. rewrite Hc, Hpre. split; [| reflexivity].
      f_equal. exact Hs.
    + exists []. split; reflexivity.
Qed.

Lemma trimStart_not_white s : starts_white (trimStart s) = false.
Proof.
  induction s as [| c s IH]; simpl; [reflexivity |].
  destruct (is_white c) eqn:Hc; [exact IH |]. simpl. exact Hc.
Qed.

Lemma trimStart_id s : starts_white s = false -> trimStart s = s.
Proof. destruct s as [| c s]; simpl; [reflexivity |]. intros ->. reflexivity. Qed.

Lemma trimEnd_split s :
  exists post, s = (trimEnd s ++ post)%list /\ forallb is_white post = true.
Proof.
  unfold trimEnd. destruct (trimStart_split (rev s)) as (pre & Hs & Hpre).
  exists (rev pre). split.
  - rewrite <- rev_app_distr, <- Hs, rev_involutive. reflexivity.
  - rewrite forallb_forall in *. intros x Hx. apply Hpre.
    apply in_rev. exact Hx.
Qed.

Lemma trimEnd_not_white s : starts_white (rev (trimEnd s)) = false.
Proof. unfold trimEnd. rewrite rev_involutive. apply trimStart_not_white. Qed.

Lemma trimEnd_id s : starts_white (rev s) = false -> trimEnd s = s.
Proof.
  intros H. unfold trimEnd. rewrite (trimStart_id _ H). apply rev_involutive.
Qed.

Lemma trimEnd_starts s :
  starts_white s = false -> starts_white (trimEnd s) = false.
Proof.
  destruct (trimEnd_split s) as (post & Hs & _).
  destruct (trimEnd s) as [| c t]; [reflexivity |].
  rewrite Hs. simpl. auto.
Qed.

Lemma trim_In c s : In c (trim s) -> In c s.
Proof.
  unfold trim. intros H.
  destruct (trimStart_split s) as (pre & Hs & _).
  destruct (trimEnd_split (trimStart s)) as (post & Ht & _).
  rewrite Hs, Ht. apply in_or_app. right. apply in_or_app. left. exact H.
Qed.

Lemma trim_clean s :
  starts_white s = false -> starts_white (rev s) = false -> trim s = s.
Proof.
  intros Hs He. unfold trim. rewrite (trimStart_id _ Hs). apply trimEnd_id.
  exact He.
Qed.

Lemma split_comma_no_comma s p : In p (split_comma s) -> ~ In comma p.
Proof.
  revert p. induction s as [| c s IH]; simpl; intros p Hp.
  - destruct Hp as [<- | []]. simpl. tauto.
  - destruct (N.eqb_spec c comma) as [-> | Hc].
    + destruct Hp as [<- | Hp]; [simpl; tauto | apply IH; exact Hp].
    + destruct (split_comma s) as [| q qs].
      * destruct Hp as [<- | []]. simpl. intros [H | []]. congruence.
      * destruct Hp as [<- | Hp].
        -- simpl. intros [H | H]; [congruence |].
           apply (IH q); [left; reflexivity | exact H].
        -- apply IH. right. exact Hp.
Qed.

Lemma corsOrigins_entries_clean s o :
  In o (corsOrigins (Some s)) -> clean_origin o.
Proof.
  intros Hin. unfold corsOrigins in Hin.
  apply filter_In in Hin as [Hin Htruthy].
  apply in_map_iff in Hin as (p & <- & Hp).
  unfold clean_origin. repeat split.
  - intros Heq. rewrite Heq in Htruthy. discriminate.
  - intros Hc. apply trim_In in Hc.
    exact (split_comma_no_comma s p Hp Hc).
  - unfold trim. apply trimEnd_starts. apply trimStart_not_white.
  - unfold trim. apply trimEnd_not_white.
Qed.

(** X17. Every origin [corsOrigins] holds is one that can be compared
    with the header of a request as it stands: it is not empty, has no
    comma in it, and no white space at either end; and when the variable
    is not set there is no origin at all. *)
Theorem corsOrigins_clean :
  corsOrigins None = []
  /\ forall s o, In o (corsOrigins (Some s)) -> clean_origin o.
Proof. split; [reflexivity | exact corsOrigins_entries_clean]. Qed.

Lemma split_comma_no_comma_id p : ~ In comma p -> split_comma p = [p].
Proof.
  induction p as [| c p IH]; simpl; [reflexivity |].
  intros H. destruct (N.eqb_spec c comma) as [-> | Hc]; [tauto |].
  rewrite IH; [reflexivity | tauto].
Qed.

Lemma split_comma_app p s :
  ~ In comma p ->
  split_comma (p ++ comma :: s) = p :: split_comma s.
Proof.
  induction p as [| c p IH]; simpl; intros H.
  - reflexivity.
  - destruct (N.eqb_spec c comma) as [-> | Hc]; [tauto |].
    rewrite IH; [reflexivity | tauto].
Qed.

Lemma split_join ps :
  ps <> [] -> Forall (fun p => ~ In comma p) ps ->
  split_comma (join_comma ps) = ps.
Proof.
  induction ps as [| p ps IH]; [congruence |].
  intros _ Hall. inversion Hall as [| x xs Hp Hps]; subst.
  destruct ps as [| q qs].
  - simpl. apply split_comma_no_comma_id. exact Hp.
  - change (join_comma (p :: q :: qs))
      with (p ++ comma :: join_comma (q :: qs))%list.
    rewrite split_comma_app by exact Hp.
    rewrite IH; [reflexivity | discriminate | exact Hps].
Qed.

Lemma clean_origins_fixed ps :
  Forall clean_origin ps -> filter truthy (map trim ps) = ps.
Proof.
  induction 1 as [| p ps (Hne & _ & Hs & He) _ IH]; simpl; [reflexivity |].
  rewrite (trim_clean p Hs He), IH.
  destruct p; [congruence | reflexivity].
Qed.

(** X18. Clean origins written one after the other with commas are read
    back as they are; in particular, writing out what [corsOrigins] holds
    and reading it again changes nothing. *)
Theorem corsOrigins_join_round_trip :
  (forall ps, Forall clean_origin ps ->
              corsOrigins (Some (join_comma ps)) = ps)
  /\ forall s,
       corsOrigins (Some (join_comma (corsOrigins (Some s))))
       = corsOrigins (Some s).
Proof.
  assert (H : forall ps, Forall clean_origin ps ->
                         corsOrigins (Some (join_comma ps)) = ps).
  { intros ps Hall. unfold corsOrigins.
    destruct ps as [| p ps]; [reflexivity |].
    rewrite split_join.
    - apply clean_origins_fixed. exact Hall.
    - discriminate.
    - eapply Forall_impl; [| exact Hall]. intros o (_ & Hc & _). exact Hc. }
  split; [exact H |].
  intros s. apply H. apply Forall_forall. intros o Ho.
  exact (corsOrigins_entries_clean s o Ho).
Qed.

(** ** The further properties on the scenarios *)

(** X1 when Alice registers a second time. *)
Lemma register_conflict_iff_email_taken_witness :
  find (has_email (dto_email Scenario.alice)) (user_table Scenario.registered)
  = Some Scenario.alice_row
  /\ fst (register (Scenario.env None) Scenario.alice Scenario.registered)
     = Throw ConflictError
  /\ snd (register (Scenario.env None) Scenario.alice Scenario.registered)
     = Scenario.registered.
Proof.
  split; [reflexivity |].
  assert (H : fst (register (Scenario.env None) Scenario.alice
                     Scenario.registered) = Throw ConflictError).
  { apply (proj1 (register_conflict_iff_email_taken (Scenario.env None)
                    Scenario.alice Scenario.registered)).
    exists Scenario.alice_row. reflexivity. }
  split; [exact H |].
  apply (proj2 (register_conflict_iff_email_taken (Scenario.env None)
                  Scenario.alice Scenario.registered)).
  exact H.
Defined.

(** X2 under a refresh lifetime that is no time span: the registration is
    rejected, Alice's row is written, and she cannot register again. *)
Lemma register_rejected_keeps_user_witness :
  register Scenario.misconfigured Scenario.alice (Scenario.empty_at 1000000)
  = (Throw (Error (invalid_expiresIn Scenario.misconfigured)),
     mkWorld [Scenario.alice_row] [] 1000000 2)
  /\ register Scenario.misconfigured Scenario.alice
       (set_clock 2000000 (mkWorld [Scenario.alice_row] [] 1000000 2))
     = (Throw ConflictError,
        set_clock 2000000 (mkWorld [Scenario.alice_row] [] 1000000 2)).
Proof.
  split; [vm_compute; reflexivity |].
  apply (register_rejected_keeps_user Scenario.misconfigured Scenario.alice
           (Scenario.empty_at 1000000)
           (Error (invalid_expiresIn Scenario.misconfigured))
           (mkWorld [Scenario.alice_row] [] 1000000 2)).
  - reflexivity.
  - vm_compute. reflexivity.
Defined.

(** X3 at Alice's registration. *)
Lemma register_succeeds_iff_witness :
  register (Scenario.env None) Scenario.alice (Scenario.empty_at 1000000)
  = (Ok (mkAuthResponse (select_user userSelect Scenario.alice_row)
           (mkTokenPair "access-secret|id-1|alice@example.com|USER|1000|1900"
              Scenario.alice_refresh)),
     Scenario.registered).
Proof.
  apply (proj2 (register_succeeds_iff (Scenario.env None) Scenario.alice
                  (Scenario.empty_at 1000000) _ _)).
  split; [reflexivity |]. exists 900, 604800.
  repeat split.
Defined.

(** X4 at Alice's login. *)
Lemma login_succeeds_iff_witness :
  login (Scenario.env None) Scenario.alice_login
    (set_clock 1002500 Scenario.registered)
  = (Ok (mkAuthResponse
           (rest_without_password
              (select_user all_columns Scenario.alice_row))
           Scenario.login_pair),
     Scenario.logged_in).
Proof.
  apply (proj2 (login_succeeds_iff (Scenario.env None) Scenario.alice_login
                  (set_clock 1002500 Scenario.registered) _ _)).
  exists Scenario.alice_row, 900, 604800.
  repeat split.
Defined.


(** X6 on Alice's deactivated account. *)
Lemma refreshTokens_inactive_user_untouched_witness :
  jws_decode (Scenario.env None) "refresh-secret" Scenario.alice_refresh
  = Some Scenario.alice_claims
  /\ refreshTokens (Scenario.env None) Scenario.alice_refresh
       (set_clock 1005000 Scenario.alice_deactivated)
     = (Throw InvalidRefreshTokenError,
        set_clock 1005000 Scenario.alice_deactivated).
Proof.
  split; [reflexivity |].
  apply (refreshTokens_inactive_user_untouched (Scenario.env None)
           Scenario.alice_refresh
           (set_clock 1005000 Scenario.alice_deactivated)
           Scenario.alice_claims); reflexivity.
Defined.

(** X7 when Alice refreshes within the second of her registration. *)
Lemma refreshTokens_collision_revokes_witness :
  refreshTokens (Scenario.env None) Scenario.alice_refresh
    (set_clock 1000500 Scenario.registered)
  = (Throw InvalidRefreshTokenError,
     mkWorld [Scenario.alice_row] [revoke Scenario.alice_record] 1000500 3)
  /\ fst (refreshTokens (Scenario.env None) Scenario.alice_refresh
            (set_clock 1005000
               (mkWorld [Scenario.alice_row] [revoke Scenario.alice_record]
                  1000500 3)))
     = Throw InvalidRefreshTokenError.
Proof.
  pose proof (refreshTokens_collision_revokes (Scenario.env None)
                Scenario.alice_refresh
                (set_clock 1000500 Scenario.registered)
                Scenario.alice_claims Scenario.alice_record
                Scenario.alice_row 900 604800) as H.
  destruct H as (H1 & _ & H3);
    try reflexivity; try (vm_compute; reflexivity);
    try (vm_compute; discriminate).
  split; [exact H1 | exact (H3 1005000)].
Defined.

(** X8 when Alice logs out and logs in again. *)
Lemma refresh_after_logout_rejected_witness :
  find (has_token Scenario.alice_refresh)
    (refreshToken_table Scenario.registered)
  = Some Scenario.alice_record
  /\ fst (refreshTokens (Scenario.env None) Scenario.alice_refresh
            (set_clock 1005000
               (serve_all (Scenario.env None)
                  [(1002500, Login Scenario.alice_login)]
                  (snd (logout Scenario.alice_refresh Scenario.registered)))))
     = Throw InvalidRefreshTokenError.
Proof.
  split; [reflexivity |].
  apply (refresh_after_logout_rejected (Scenario.env None)
           Scenario.alice_refresh Scenario.registered Scenario.alice_record).
  reflexivity.
Defined.

(** X9 when Alice is deactivated. *)
Lemma deactivate_locks_out_witness :
  UsersService_deactivate "id-1" Scenario.registered
  = (Ok (set_isActive false Scenario.alice_row), Scenario.alice_deactivated)
  /\ validateUser "id-1" (set_clock 1005000 Scenario.alice_deactivated)
     = (Throw AccountInactiveError,
        set_clock 1005000 Scenario.alice_deactivated)
  /\ login (Scenario.env None) Scenario.alice_login
       (set_clock 1005000 Scenario.alice_deactivated)
     = (Throw AccountInactiveError,
        set_clock 1005000 Scenario.alice_deactivated).
Proof.
  split; [reflexivity |].
  destruct (deactivate_locks_out (Scenario.env None) "id-1"
              Scenario.registered (set_isActive false Scenario.alice_row)
              Scenario.alice_deactivated eq_refl)
    as (_ & _ & _ & Hv & _ & Hl).
  split; [exact (Hv 1005000) |].
  apply Hl; [| reflexivity].
  unfold unique_emails. simpl. repeat constructor. simpl. tauto.
Defined.

(** X10 when Alice is made an administrator, six seconds after her
    registration. *)
Lemma assignRole_sets_role_only_witness :
  UsersService_assignRole "id-1" ADMIN (set_clock 1006000 Scenario.registered)
  = (Ok (select_user userSelect Scenario.alice_admin_row),
     Scenario.alice_promoted)
  /\ o_role (select_user userSelect Scenario.alice_admin_row) = ADMIN
  /\ o_updatedAt (select_user userSelect Scenario.alice_admin_row) = 1006000
  /\ updatedAt Scenario.alice_row = 1000000
  /\ UsersService_findById "id-1" Scenario.alice_promoted
     = (Ok (select_user userSelect Scenario.alice_admin_row),
        Scenario.alice_promoted).
Proof.
  split; [reflexivity |].
  destruct (assignRole_sets_role_only "id-1" ADMIN
              (set_clock 1006000 Scenario.registered)
              (select_user userSelect Scenario.alice_admin_row)
              Scenario.alice_promoted eq_refl)
    as (_ & Hrole & Hstamp & _ & _ & _ & _ & Hfind).
  split; [exact Hrole |]. split; [exact Hstamp |].
  split; [reflexivity | exact Hfind].
Defined.

(** X11 for an identifier nobody has. *)
Lemma unknown_id_errors_witness :
  find (has_id "id-9") (user_table Scenario.registered) = None
  /\ UsersService_findById "id-9" Scenario.registered
     = (Throw (NotFoundException "User not found"), Scenario.registered)
  /\ UsersService_deactivate "id-9" Scenario.registered
     = (Throw (PrismaClientKnownRequestError "P2025"), Scenario.registered).
Proof.
  split; [reflexivity |].
  destruct (unknown_id_errors (Scenario.env None) "id-9" Scenario.registered
              eq_refl) as (H1 & _ & _ & _ & H5).
  split; [exact H1 | exact H5].
Defined.

(** X13 from Alice's registration through a login, a rotation and Bob's
    registration. *)
Lemma requests_keep_uniqueness_witness :
  unique_tokens Scenario.registered
  /\ unique_tokens
       (serve_all (Scenario.env None)
          [(1002500, Login Scenario.alice_login);
           (1005000, Refresh Scenario.alice_refresh);
           (2000000, Register Scenario.bob)]
          Scenario.registered).
Proof.
  assert (H : unique_tokens Scenario.registered).
  { unfold unique_tokens. simpl. repeat constructor. simpl. tauto. }
  split; [exact H |].
  apply (proj1 (requests_keep_uniqueness (Scenario.env None)
                  [(1002500, Login Scenario.alice_login);
                   (1005000, Refresh Scenario.alice_refresh);
                   (2000000, Register Scenario.bob)]
                  Scenario.registered)).
  exact H.
Defined.

(** X14 at Alice's rotation. *)
Lemma rotation_revokes_what_logout_revokes_witness :
  exists row,
    refreshToken_table Scenario.rotated
    = (refreshToken_table
         (snd (logout Scenario.alice_refresh
                 (set_clock 1005000 Scenario.registered))) ++ [row])%list
    /\ token row = refreshToken Scenario.rotated_pair
    /\ isRevoked row = false.
Proof.
  apply (rotation_revokes_what_logout_revokes (Scenario.env None)
           Scenario.alice_refresh (set_clock 1005000 Scenario.registered)
           Scenario.rotated_pair Scenario.rotated).
  - unfold unique_tokens. simpl. repeat constructor. simpl. tauto.
  - vm_compute. reflexivity.
Defined.

(** X15 when Alice rotates the token of her login seven and a half
    seconds later. *)
Lemma login_then_refresh_witness :
  exists w2,
    refreshTokens (Scenario.env None) (refreshToken Scenario.login_pair)
      (set_clock 1010000 Scenario.logged_in)
    = (Ok (mkTokenPair "access-secret|id-1|alice@example.com|USER|1010|1910"
             "refresh-secret|id-1|alice@example.com|USER|1010|605810"),
       w2).
Proof.
  apply (login_then_refresh (Scenario.env None) Scenario.alice_login
           (set_clock 1002500 Scenario.registered)
           (mkAuthResponse
              (rest_without_password
                 (select_user all_columns Scenario.alice_row))
              Scenario.login_pair)
           Scenario.logged_in Scenario.alice_row 900 604800 1010000);
    try reflexivity; vm_compute; try reflexivity; discriminate.
Defined.

(** X16 when Alice, made an administrator, rotates the token she got as
    an ordinary user. *)
Lemma refresh_after_assignRole_carries_role_witness :
  jwt_role Scenario.alice_claims = USER
  /\ exists attl rttl,
       access_ttl (Scenario.env None) = Some attl
       /\ refresh_ttl (Scenario.env None) = Some rttl
       /\ mkTokenPair "access-secret|id-1|alice@example.com|ADMIN|1010|1910"
            "refresh-secret|id-1|alice@example.com|ADMIN|1010|605810"
          = pair_at (Scenario.env None) 1010000 attl rttl "id-1"
              "alice@example.com" ADMIN.
Proof.
  split; [reflexivity |].
  apply (refresh_after_assignRole_carries_role (Scenario.env None) "id-1"
           ADMIN (set_clock 1006000 Scenario.registered)
           (select_user userSelect Scenario.alice_admin_row)
           Scenario.alice_promoted Scenario.alice_refresh
           Scenario.alice_claims 1010000
           (mkTokenPair "access-secret|id-1|alice@example.com|ADMIN|1010|1910"
              "refresh-secret|id-1|alice@example.com|ADMIN|1010|605810")
           (snd (refreshTokens (Scenario.env None) Scenario.alice_refresh
                   (set_clock 1010000 Scenario.alice_promoted))));
    reflexivity.
Defined.

(** X17 on a variable written with stray spaces and commas. *)
Lemma corsOrigins_clean_witness :
  corsOrigins (Some (units " http://a.example , ,https://b.example,, "))
  = [units "http://a.example"; units "https://b.example"]
  /\ clean_origin (units "https://b.example").
Proof.
  split; [reflexivity |].
  apply (proj2 corsOrigins_clean
           (units " http://a.example , ,https://b.example,, ")).
  vm_compute. tauto.
Defined.

(** X18 on the same variable. *)
Lemma corsOrigins_join_round_trip_witness :
  corsOrigins
    (Some (join_comma
             (corsOrigins
                (Some (units " http://a.example , ,https://b.example,, ")))))
  = corsOrigins (Some (units " http://a.example , ,https://b.example,, ")).
Proof.
  apply (proj2 corsOrigins_join_round_trip).
Defined.

(** ** Rejections and what they write; sessions side by side *)

(** X19. A rejected [login] writes nothing, and it is rejected with one of
    four exceptions: invalid credentials, account inactive, the plain
    error with which signing rejects a lifetime that is no time span, or
    the duplicate-token error of the database. *)
Theorem login_rejected_writes_nothing E dto w e w' :
  login E dto w = (Throw e, w') ->
  w' = w
  /\ (e = InvalidCredentialsError \/ e = AccountInactiveError
      \/ e = Error (invalid_expiresIn E)
      \/ e = PrismaClientKnownRequestError "P2002").
Proof.
  rewrite login_run. cbv zeta.
  destruct (find (has_email (login_email dto)) (user_table w)) as [u |].
  2: { intros H. injection H as <- <-. auto. }
  destruct (negb (isActive u)).
  { intros H. injection H as <- <-. auto. }
  destruct (negb (bcrypt_compare E (login_password dto) (password u))).
  { intros H. injection H as <- <-. auto. }
  destruct (access_ttl E).
  2: { intros H. injection H as <- <-. auto. }
  destruct (refresh_ttl E).
  2: { intros H. injection H as <- <-. auto 6. }
  destruct (existsb _ _); [| discriminate].
  intros H. injection H as <- <-. auto 6.
Qed.

(** X20. A rejected [refreshTokens] has created no record and touched no
    token but the one presented: the state is as it was, or differs only
    in that the record of that token is revoked. *)
Theorem refreshTokens_rejected_state E t w e w' :
  refreshTokens E t w = (Throw e, w') ->
  e = InvalidRefreshTokenError
  /\ (w' = w
      \/ w' = set_refreshTokens (revoke_first t (refreshToken_table w)) w).
Proof.
  rewrite refreshTokens_run, refreshTokens_try_run. cbv zeta.
  destruct (jws_decode E (JWT_REFRESH_SECRET (configService E)) t)
    as [payload |].
  2: { intros H. injection H as <- <-. auto. }
  destruct (exp payload <=? seconds (clock w)).
  { intros H. injection H as <- <-. auto. }
  destruct (find (has_token t) (refreshToken_table w)) as [stored |].
  2: { intros H. injection H as <- <-. auto. }
  destruct (isRevoked stored).
  { intros H. injection H as <- <-. auto. }
  destruct (expiresAt stored <? clock w).
  { intros H. injection H as <- <-. auto. }
  destruct (find (has_id (sub payload)) (user_table w)) as [u |].
  2: { intros H. injection H as <- <-. auto. }
  destruct (negb (isActive u)).
  { intros H. injection H as <- <-. auto. }
  destruct (access_ttl E).
  2: { intros H. injection H as <- <-. auto. }
  destruct (refresh_ttl E).
  2: { intros H. injection H as <- <-. auto. }
  destruct (existsb _ _); [| discriminate].
  intros H. injection H as <- <-. auto.
Qed.

Lemma find_map_revoke_other t t' rows :
  t <> t' ->
  find (has_token t') (map (revoke_matching t) rows)
  = find (has_token t') rows.
Proof.
  intros Hne. induction rows as [| r rows IH]; simpl; [reflexivity |].
  rewrite has_token_revoke_matching.
  destruct (has_token t' r) eqn:Hr; [| exact IH].
  unfold revoke_matching, has_token in *.
  destruct (String.eqb_spec (token r) t) as [Heq |]; [| reflexivity].
  apply String.eqb_eq in Hr. congruence.
Qed.

Lemma existsb_has_token_map_revoke t' t rows :
  existsb (has_token t') (map (revoke_matching t) rows)
  = existsb (has_token t') rows.
Proof.
  rewrite !existsb_has_token_tokens, map_revoke_matching_tokens. reflexivity.
Qed.

(** X21. Logging one session out leaves the others as they were: after
    [logout] of a string, [refreshTokens] answers any other string as it
    would have answered it before. *)
Theorem logout_spares_other_tokens E t t' w :
  t <> t' ->
  fst (refreshTokens E t' (snd (logout t w))) = fst (refreshTokens E t' w).
Proof.
  intros Hne. rewrite logout_run. cbn [snd].
  rewrite !refreshTokens_run, !refreshTokens_try_run. cbv zeta.
  cbn [refreshToken_table user_table clock set_refreshTokens].
  rewrite (find_map_revoke_other t t' _ Hne).
  destruct (jws_decode E (JWT_REFRESH_SECRET (configService E)) t')
    as [payload |]; [| reflexivity].
  destruct (exp payload <=? seconds (clock w)); [reflexivity |].
  destruct (find (has_token t') (refreshToken_table w)) as [stored |];
    [| reflexivity].
  destruct (isRevoked stored); [reflexivity |].
  destruct (expiresAt stored <? clock w); [reflexivity |].
  destruct (find (has_id (sub payload)) (user_table w)) as [u |];
    [| reflexivity].
  destruct (negb (isActive u)); [reflexivity |].
  destruct (access_ttl E); [| reflexivity].
  destruct (refresh_ttl E); [| reflexivity].
  rewrite existsb_has_token_map_revoke.
  destruct (existsb _ _); reflexivity.
Qed.

(** X22. A registered user can log in, and cannot register again: after a
    successful [register], at any later time, [register] with the same
    email is rejected with the conflict exception; and [login] with the
    email and the password of the registration succeeds, provided bcrypt
    matches the password with the digest it made of it and the refresh
    token to be signed is not stored yet.  The user object [login] returns
    then has the very properties of the one [register] returned. *)
Theorem register_then_login_or_conflict E dto w resp w1 later :
  register E dto w = (Ok resp, w1) ->
  (forall dto',
      dto_email dto' = dto_email dto ->
      register E dto' (set_clock later w1)
      = (Throw ConflictError, set_clock later w1))
  /\ (bcrypt_compare E (dto_password dto)
        (bcrypt_hash E (drawn w) (dto_password dto)) = true ->
      forall attl rttl,
        access_ttl E = Some attl -> refresh_ttl E = Some rttl ->
        existsb
          (has_token
             (refreshToken
                (pair_at E later attl rttl (id (registered_user E dto w))
                   (dto_email dto) (role (registered_user E dto w)))))
          (refreshToken_table w1) = false ->
        exists resp' w2,
          login E (mkLoginDto (dto_email dto) (dto_password dto))
            (set_clock later w1)
          = (Ok resp', w2)
          /\ properties (resp_user resp') = properties (resp_user resp)
          /\ resp_tokens resp'
             = pair_at E later attl rttl (id (registered_user E dto w))
                 (dto_email dto) (role (registered_user E dto w))).
Proof.
  intros Hreg. apply register_Ok_iff in Hreg
    as (Hfree & a & r & Ha & Hr & _ & -> & ->).
  assert (Hfind : find (has_email (dto_email dto))
                    (user_table w ++ [registered_user E dto w])
                  = Some (registered_user E dto w)).
  { rewrite (find_app_None _ _ _ Hfree).
    unfold has_email, registered_user, new_user. cbn [email].
    rewrite String.eqb_refl. reflexivity. }
  split.
  - intros dto' Hemail. rewrite register_run.
    cbn [user_table set_clock with_record with_user].
    rewrite Hemail, Hfind. reflexivity.
  - intros Hpw attl rttl Ha' Hr' Hfresh.
    eexists. eexists. split; [| split].
    + apply login_Ok_iff.
      exists (registered_user E dto w), attl, rttl.
      cbn [login_email login_password user_table refreshToken_table clock
           set_clock with_record with_user].
      split; [exact Hfind |]. split; [reflexivity |].
      split; [exact Hpw |]. split; [exact Ha' |]. split; [exact Hr' |].
      split; [exact Hfresh |]. split; reflexivity.
    + reflexivity.
    + reflexivity.
Qed.

Lemma nth_error_snoc {A} (l : list A) (x : A) n a :
  nth_error l n = Some a -> nth_error (l ++ [x]) n = Some a.
Proof.
  intros H. rewrite nth_error_app1; [exact H |].
  apply nth_error_Some. rewrite H. discriminate.
Qed.

(** X23. A request revokes no record but those of the token it names:
    [register] and [login] leave every record exactly as it was, and
    [refreshTokens] and [logout] leave exactly as it was every record
    whose token is not the string presented. *)
Theorem requests_spare_other_records E q w n r :
  nth_error (refreshToken_table w) n = Some r ->
  match q with
  | Refresh t | Logout t => token r <> t
  | Register _ | Login _ => True
  end ->
  nth_error (refreshToken_table (handle E q w)) n = Some r.
Proof.
  intros Hn Hq. destruct q as [dto | dto | t | t]; cbn [handle].
  - rewrite register_run. cbv zeta.
    destruct (find (has_email (dto_email dto)) (user_table w)); [exact Hn |].
    destruct (access_ttl E); [| exact Hn].
    destruct (refresh_ttl E); [| exact Hn].
    destruct (existsb _ _); [exact Hn |].
    cbn [snd refreshToken_table with_record with_user].
    apply nth_error_snoc. exact Hn.
  - rewrite login_run. cbv zeta.
    destruct (find (has_email (login_email dto)) (user_table w)) as [u |];
      [| exact Hn].
    destruct (negb (isActive u)); [exact Hn |].
    destruct (negb (bcrypt_compare E (login_password dto) (password u)));
      [exact Hn |].
    destruct (access_ttl E); [| exact Hn].
    destruct (refresh_ttl E); [| exact Hn].
    destruct (existsb _ _); [exact Hn |].
    cbn [snd refreshToken_table with_record].
    apply nth_error_snoc. exact Hn.
  - pose proof (revoke_first_other t _ n r Hn Hq) as Hrev.
    rewrite refreshTokens_run, refreshTokens_try_run. cbv zeta.
    destruct (jws_decode E (JWT_REFRESH_SECRET (configService E)) t)
      as [payload |]; [| exact Hn].
    destruct (exp payload <=? seconds (clock w)); [exact Hn |].
    destruct (find (has_token t) (refreshToken_table w)) as [stored |];
      [| exact Hn].
    destruct (isRevoked stored); [exact Hn |].
    destruct (expiresAt stored <? clock w); [exact Hn |].
    destruct (find (has_id (sub payload)) (user_table w)) as [u |];
      [| exact Hn].
    destruct (negb (isActive u)); [exact Hn |].
    destruct (access_ttl E); [| exact Hrev].
    destruct (refresh_ttl E); [| exact Hrev].
    destruct (existsb _ _); [exact Hrev |].
    cbn [snd refreshToken_table with_record set_refreshTokens].
    apply nth_error_snoc. exact Hrev.
  - rewrite logout_run. cbn [snd refreshToken_table set_refreshTokens].
    rewrite nth_error_map, Hn. cbn [option_map]. f_equal.
    unfold revoke_matching, has_token.
    destruct (String.eqb_spec (token r) t); [contradiction | reflexivity].
Qed.

(** X19 when Alice mistypes her password. *)
Lemma login_rejected_writes_nothing_witness :
  login (Scenario.env None) Scenario.wrong_password Scenario.registered
  = (Throw InvalidCredentialsError, Scenario.registered)
  /\ (Scenario.registered = Scenario.registered
      /\ (InvalidCredentialsError = InvalidCredentialsError
          \/ InvalidCredentialsError = AccountInactiveError
          \/ InvalidCredentialsError
             = Error (invalid_expiresIn (Scenario.env None))
          \/ InvalidCredentialsError
             = PrismaClientKnownRequestError "P2002")).
Proof.
  split; [reflexivity |].
  apply (login_rejected_writes_nothing (Scenario.env None)
           Scenario.wrong_password Scenario.registered
           InvalidCredentialsError Scenario.registered).
  reflexivity.
Defined.

(** X20 when Alice refreshes within the second of her registration. *)
Lemma refreshTokens_rejected_state_witness :
  refreshTokens (Scenario.env None) Scenario.alice_refresh
    (set_clock 1000500 Scenario.registered)
  = (Throw InvalidRefreshTokenError,
     mkWorld [Scenario.alice_row] [revoke Scenario.alice_record] 1000500 3)
  /\ (InvalidRefreshTokenError = InvalidRefreshTokenError
      /\ (mkWorld [Scenario.alice_row] [revoke Scenario.alice_record]
            1000500 3
          = set_clock 1000500 Scenario.registered
          \/ mkWorld [Scenario.alice_row] [revoke Scenario.alice_record]
               1000500 3
             = set_refreshTokens
                 (revoke_first Scenario.alice_refresh
                    (refreshToken_table
                       (set_clock 1000500 Scenario.registered)))
                 (set_clock 1000500 Scenario.registered))).
Proof.
  split; [vm_compute; reflexivity |].
  apply (refreshTokens_rejected_state (Scenario.env None)
           Scenario.alice_refresh (set_clock 1000500 Scenario.registered)
           InvalidRefreshTokenError
           (mkWorld [Scenario.alice_row] [revoke Scenario.alice_record]
              1000500 3)).
  vm_compute. reflexivity.
Defined.

(** X21 when Alice logs out and Bob then rotates his token. *)
Lemma logout_spares_other_tokens_witness :
  Scenario.alice_refresh <> Scenario.bob_refresh
  /\ is_ok (fst (refreshTokens (Scenario.env None) Scenario.bob_refresh
                   (set_clock 2500000 Scenario.both_registered))) = true
  /\ fst (refreshTokens (Scenario.env None) Scenario.bob_refresh
            (snd (logout Scenario.alice_refresh
                    (set_clock 2500000 Scenario.both_registered))))
     = fst (refreshTokens (Scenario.env None) Scenario.bob_refresh
              (set_clock 2500000 Scenario.both_registered)).
Proof.
  assert (H : Scenario.alice_refresh <> Scenario.bob_refresh)
    by (vm_compute; discriminate).
  split; [exact H |]. split; [vm_compute; reflexivity |].
  apply (logout_spares_other_tokens (Scenario.env None)
           Scenario.alice_refresh Scenario.bob_refresh
           (set_clock 2500000 Scenario.both_registered)).
  exact H.
Defined.

(** X22 at Alice's registration and the login that follows. *)
Lemma register_then_login_or_conflict_witness :
  register (Scenario.env None) Scenario.alice (Scenario.empty_at 1000000)
  = (Ok (mkAuthResponse (select_user userSelect Scenario.alice_row)
           (mkTokenPair "access-secret|id-1|alice@example.com|USER|1000|1900"
              Scenario.alice_refresh)),
     Scenario.registered)
  /\ register (Scenario.env None) Scenario.alice
       (set_clock 1002500 Scenario.registered)
     = (Throw ConflictError, set_clock 1002500 Scenario.registered)
  /\ exists resp' w2,
       login (Scenario.env None) Scenario.alice_login
         (set_clock 1002500 Scenario.registered)
       = (Ok resp', w2)
       /\ properties (resp_user resp')
          = properties (select_user userSelect Scenario.alice_row)
       /\ resp_tokens resp' = Scenario.login_pair.
Proof.
  assert (H : register (Scenario.env None) Scenario.alice
                (Scenario.empty_at 1000000)
              = (Ok (mkAuthResponse
                       (select_user userSelect Scenario.alice_row)
                       (mkTokenPair
                          "access-secret|id-1|alice@example.com|USER|1000|1900"
                          Scenario.alice_refresh)),
                 Scenario.registered))
    by (vm_compute; reflexivity).
  split; [exact H |].
  destruct (register_then_login_or_conflict (Scenario.env None)
              Scenario.alice (Scenario.empty_at 1000000) _ _ 1002500 H)
    as [Hconflict Hlogin].
  split; [exact (Hconflict Scenario.alice eq_refl) |].
  apply (Hlogin eq_refl 900 604800 eq_refl eq_refl). reflexivity.
Defined.

(** X23 at Alice's logout, seen from Bob's record. *)
Lemma requests_spare_other_records_witness :
  nth_error (refreshToken_table Scenario.both_registered) 1
  = Some Scenario.bob_record
  /\ nth_error
       (refreshToken_table
          (handle (Scenario.env None) (Logout Scenario.alice_refresh)
             Scenario.both_registered)) 1
     = Some Scenario.bob_record.
Proof.
  split; [reflexivity |].
  apply (requests_spare_other_records (Scenario.env None)
           (Logout Scenario.alice_refresh) Scenario.both_registered 1
           Scenario.bob_record).
  - reflexivity.
  - vm_compute. discriminate.
Defined.
